(** * Koyeb keep-alive script (koyeb.py): a shallow embedding and its properties

    The script reads a JSON list of accounts from the environment, checks
    each account's API token with one HTTP GET, and reports the outcome
    through one Telegram message.  The embedding below follows koyeb.py
    function by function.  Effects (log records, HTTP requests, sleeps)
    are appended to a trace; what the outside world answers (environment
    variables, the clock, HTTP outcomes) is read from a [world]. *)

From Stdlib Require Import ZArith String Ascii List Bool Lia.
From Stdlib Require Import DecimalString.
From Stdlib.Strings Require Import Byte.
From Stdlib Require Import Floats.SpecFloat.
Import ListNotations.

Local Open Scope Z_scope.

(** ** Python strings

    A Python [str] is a sequence of Unicode code points.  The literals of
    the script are written as they are in koyeb.py: a string notation
    decodes their UTF-8 text into code points. *)

Definition pystr := list Z.

Inductive literal := LNil | LCons (c : Z) (r : literal).

Fixpoint utf8_decode (bs : list Z) : literal :=
  match bs with
  | [] => LNil
  | b0 :: r0 =>
      if b0 <? 128 then LCons b0 (utf8_decode r0)
      else match r0 with
      | [] => LNil
      | b1 :: r1 =>
          if b0 <? 224
          then LCons ((b0 mod 32) * 64 + b1 mod 64) (utf8_decode r1)
          else match r1 with
          | [] => LNil
          | b2 :: r2 =>
              if b0 <? 240
              then LCons ((b0 mod 16) * 4096 + (b1 mod 64) * 64 + b2 mod 64)
                     (utf8_decode r2)
              else match r2 with
              | [] => LNil
              | b3 :: r3 =>
                  LCons ((b0 mod 8) * 262144 + (b1 mod 64) * 4096
                         + (b2 mod 64) * 64 + b3 mod 64) (utf8_decode r3)
              end
          end
      end
  end.

Definition literal_of_bytes (bs : list Byte.byte) : literal :=
  utf8_decode (map (fun b => Z.of_N (Byte.to_N b)) bs).

Definition bytes_of_literal (l : literal) : option (list Byte.byte) := None.

Declare Scope py_scope.
Delimit Scope py_scope with py.

#[local] Set Warnings "-via-type-remapping,-via-type-mismatch".
String Notation pystr literal_of_bytes bytes_of_literal
  (via literal mapping [[nil] => LNil, [cons] => LCons]) : py_scope.
#[local] Set Warnings "via-type-remapping,via-type-mismatch".

Local Open Scope py_scope.

Definition bytes_of (s : string) : pystr :=
  map (fun c => Z.of_N (N_of_ascii c)) (list_ascii_of_string s).

(** [str(n)] for an [int]. *)
Definition str_of_int (n : Z) : pystr :=
  bytes_of (NilZero.string_of_int (Z.to_int n)).

(** [sep.join(parts)] *)
Fixpoint join (sep : pystr) (parts : list pystr) : pystr :=
  match parts with
  | [] => []
  | [p] => p
  | p :: rest => p ++ sep ++ join sep rest
  end.

(** Python's [str.isspace] on one code point: the characters [str.strip()]
    removes when called without an argument. *)
Definition is_space (c : Z) : bool :=
  ((9 <=? c) && (c <=? 13)) || ((28 <=? c) && (c <=? 32))
  || (c =? 133) || (c =? 160) || (c =? 5760)
  || ((8192 <=? c) && (c <=? 8202))
  || (c =? 8232) || (c =? 8233) || (c =? 8239) || (c =? 8287) || (c =? 12288).

Fixpoint lstrip (s : pystr) : pystr :=
  match s with
  | [] => []
  | c :: r => if is_space c then lstrip r else s
  end.

Definition rstrip (s : pystr) : pystr := rev (lstrip (rev s)).

(** [s.strip()] *)
Definition strip (s : pystr) : pystr := rstrip (lstrip s).

Definition pystr_eqb (a b : pystr) : bool :=
  if list_eq_dec Z.eq_dec a b then true else false.

(** ** Python values, as [json.loads] builds them

    A JSON object becomes a [dict]: its items in insertion order.  The keys
    of a real [dict] are distinct; [dict_lookup] takes the first binding. *)

#[local] Set Warnings "-register-all".

Inductive pyval :=
| PNone
| PBool (b : bool)
| PInt (n : Z)
| PFloat (f : spec_float)
| PStr (s : pystr)
| PList (items : list pyval)
| PDict (items : list (pystr * pyval)).

(** [bool(v)]: what [not v] and [or] test. *)
Definition truthy (v : pyval) : bool :=
  match v with
  | PNone => false
  | PBool b => b
  | PInt n => negb (n =? 0)
  | PFloat (S754_zero _) => false
  | PFloat _ => true
  | PStr s => match s with [] => false | _ => true end
  | PList l => match l with [] => false | _ => true end
  | PDict d => match d with [] => false | _ => true end
  end.

(** [type(v).__name__] *)
Definition type_name (v : pyval) : pystr :=
  match v with
  | PNone => "NoneType"
  | PBool _ => "bool"
  | PInt _ => "int"
  | PFloat _ => "float"
  | PStr _ => "str"
  | PList _ => "list"
  | PDict _ => "dict"
  end.

Fixpoint dict_lookup (d : list (pystr * pyval)) (k : pystr) : option pyval :=
  match d with
  | [] => None
  | (k', v) :: r => if pystr_eqb k' k then Some v else dict_lookup r k
  end.

(** ** Exceptions

    Every exception of the script is caught either by class
    ([requests.Timeout], [requests.RequestException],
    [json.JSONDecodeError]) or as [Exception]; [str(e)] is its message.
    [UnicodeEncodeError] is what a [requests] call raises, outside its own
    exception classes, for a header value outside Latin-1 or for form data
    holding a lone surrogate; [OtherException] stands for any further
    class. *)

Inductive exn_class :=
| ValueError | TypeError | AttributeError | OverflowError
| UnicodeEncodeError | OtherException.

Record exn := mk_exn { exn_cls : exn_class; exn_str : pystr }.

(** ** The calendar: [datetime.utcnow() + timedelta(hours=8)] and [strftime]

    Only the fields the format string prints are kept; seconds and
    microseconds are not touched by a shift of whole hours. *)

Record datetime := mk_datetime
  { year : Z; month : Z; day : Z; hour : Z; minute : Z }.

Definition is_leap (y : Z) : bool :=
  ((y mod 4 =? 0) && negb (y mod 100 =? 0)) || (y mod 400 =? 0).

Definition days_in_month (y m : Z) : Z :=
  if m =? 2 then (if is_leap y then 29 else 28)
  else if (m =? 4) || (m =? 6) || (m =? 9) || (m =? 11) then 30
  else 31.

Definition MAXYEAR : Z := 9999.

(** The day after [(y, m, d)]; [None] past 9999-12-31, where Python raises
    [OverflowError]. *)
Definition next_day (y m d : Z) : option (Z * Z * Z) :=
  if d <? days_in_month y m then Some (y, m, d + 1)
  else if m <? 12 then Some (y, m + 1, 1)
  else if y <? MAXYEAR then Some (y + 1, 1, 1)
  else None.

(** [dt + timedelta(hours=8)] *)
Definition add_8_hours (dt : datetime) : option datetime :=
  if hour dt + 8 <? 24
  then Some (mk_datetime (year dt) (month dt) (day dt) (hour dt + 8) (minute dt))
  else match next_day (year dt) (month dt) (day dt) with
       | Some (y, m, d) => Some (mk_datetime y m d (hour dt + 8 - 24) (minute dt))
       | None => None
       end.

Definition digit (n : Z) : Z := 48 + n mod 10.
Definition pad2 (n : Z) : pystr := [digit (n / 10); digit n].
Definition pad4 (n : Z) : pystr :=
  [digit (n / 1000); digit (n / 100); digit (n / 10); digit n].

(** [dt.strftime("%Y-%m-%d %H:%M")], every field zero-padded to its width. *)
Definition strftime_ymd_hm (dt : datetime) : pystr :=
  pad4 (year dt) ++ "-" ++ pad2 (month dt) ++ "-" ++ pad2 (day dt)
  ++ " " ++ pad2 (hour dt) ++ ":" ++ pad2 (minute dt).

Definition valid_datetime (dt : datetime) : Prop :=
  1 <= year dt <= MAXYEAR /\ 1 <= month dt <= 12
  /\ 1 <= day dt <= days_in_month (year dt) (month dt)
  /\ 0 <= hour dt < 24 /\ 0 <= minute dt < 60.

(** ** Effects and the outside world *)

Inductive level := INFO | WARNING | ERROR.

Inductive event :=
| Log (lvl : level) (msg : pystr)
    (* logging.info / logging.warning / logging.error *)
| Get (url : pystr) (headers : list (pystr * pystr)) (timeout : Z)
    (* requests.get(url, headers=headers, timeout=timeout) *)
| Post (url : pystr) (data : list (pystr * pystr)) (timeout : Z)
    (* requests.post(url, data=data, timeout=timeout) *)
| Sleep (seconds : Z)
    (* time.sleep(seconds) *)
| Notify (message : pystr).
    (* entry into send_tg_message(message) *)

Definition trace := list event.

(** What a [requests] call does: it returns a response, or raises
    [requests.Timeout], or raises another [requests.RequestException], or
    raises an exception that is not a [RequestException] at all (the
    script's [except] clauses around a request do not catch that one).
    A [requests] exception carries its [str(e)]. *)
Inductive http_outcome :=
| Responded (status : Z) (reason : pystr) (url : pystr)
| TimedOut (msg : pystr)
| RequestFailed (msg : pystr)
| Escaped (e : exn).

Record world := mk_world
  { getenv : pystr -> option pystr;
      (* os.getenv(name) *)
    utcnow : datetime;
      (* datetime.utcnow(), read once per run *)
    http : trace -> http_outcome
      (* the outcome of the request recorded last in the trace *) }.

(** ** The monad of the script: a trace that grows, and exceptions *)

Inductive result (A : Type) :=
| Ok (a : A)
| Raised (e : exn).
Arguments Ok {A} a.
Arguments Raised {A} e.

Definition M (A : Type) : Type := trace -> result A * trace.

Definition ret {A} (a : A) : M A := fun t => (Ok a, t).

Definition bind {A B} (m : M A) (k : A -> M B) : M B :=
  fun t => match m t with
           | (Ok a, t') => k a t'
           | (Raised e, t') => (Raised e, t')
           end.

Definition raise {A} (e : exn) : M A := fun t => (Raised e, t).

(** [try: m  except Exception as e: h e] *)
Definition try_except {A} (m : M A) (h : exn -> M A) : M A :=
  fun t => match m t with
           | (Ok a, t') => (Ok a, t')
           | (Raised e, t') => h e t'
           end.

Definition emit (e : event) : M unit := fun t => (Ok tt, t ++ [e]).

(** Issue a request and read the world's answer to it: the call is
    recorded, and an exception that is not a [RequestException] is raised
    to the caller. *)
Definition request (w : world) (e : event) : M http_outcome :=
  fun t =>
    match http w (t ++ [e]) with
    | Escaped x => (Raised x, t ++ [e])
    | outcome => (Ok outcome, t ++ [e])
    end.

Notation "x <- m ;; k" := (bind m (fun x => k))
  (at level 61, m at next level, right associativity).
Notation "m ;; k" := (bind m (fun _ => k))
  (at level 61, right associativity).

Definition nl : pystr := [10].

(** [Response.raise_for_status()]: the message of the [HTTPError] it
    raises for a 4xx or 5xx status, [None] when it returns. *)
Definition http_error_msg (status : Z) (reason url : pystr) : option pystr :=
  if (400 <=? status) && (status <? 500)
  then Some (str_of_int status ++ " Client Error: " ++ reason
             ++ " for url: " ++ url)
  else if (500 <=? status) && (status <? 600)
  then Some (str_of_int status ++ " Server Error: " ++ reason
             ++ " for url: " ++ url)
  else None.

(** [obj.get(key, default)] *)
Definition get_method (obj : pyval) (key : pystr) (default : pyval) : M pyval :=
  match obj with
  | PDict d =>
      ret (match dict_lookup d key with Some v => v | None => default end)
  | _ =>
      raise (mk_exn AttributeError
               ("'" ++ type_name obj ++ "' object has no attribute 'get'"))
  end.

(** [obj.strip()] *)
Definition strip_method (obj : pyval) : M pystr :=
  match obj with
  | PStr s => ret (strip s)
  | _ =>
      raise (mk_exn AttributeError
               ("'" ++ type_name obj ++ "' object has no attribute 'strip'"))
  end.

(** [iter(v)], run to its end: what a [for] loop walks through. *)
Definition iterate (v : pyval) : M (list pyval) :=
  match v with
  | PList l => ret l
  | PDict d => ret (map (fun kv => PStr (fst kv)) d)
  | PStr s => ret (map (fun c => PStr [c]) s)
  | _ =>
      raise (mk_exn TypeError
               ("'" ++ type_name v ++ "' object is not iterable"))
  end.

(** ** koyeb.py *)

Section Script.

(** [json.loads] on a [str]: the value parsed, or [None] where it raises
    [json.JSONDecodeError]. *)
Variable json_loads : pystr -> option pyval.

(** How an f-string renders a value that is not a [str]. *)
Variable format_other : pyval -> pystr.

Variable w : world.

(** [f"{v}"] *)
Definition fmt (v : pyval) : pystr :=
  match v with
  | PStr s => s
  | _ => format_other v
  end.

(** [os.getenv] returns [None] or a [str]; [not v] holds of [None] and
    of the empty string. *)
Definition validate_env_variables : M pyval :=
  let koyeb_accounts_env := getenv w "KOYEB_ACCOUNTS" in
  match koyeb_accounts_env with
  | None | Some [] =>
      raise (mk_exn ValueError "❌ KOYEB_ACCOUNTS 环境变量未设置或格式错误")
  | Some s =>
      match json_loads s with
      | Some v => ret v
      | None => raise (mk_exn ValueError "❌ KOYEB_ACCOUNTS JSON 格式无效")
      end
  end.

Definition send_tg_message (message : pystr) : M unit :=
  emit (Notify message) ;;
  let bot_token := getenv w "TG_BOT_TOKEN" in
  let chat_id := getenv w "TG_CHAT_ID" in
  match bot_token, chat_id with
  | Some ((_ :: _) as bot_token), Some ((_ :: _) as chat_id) =>
      let url := "https://api.telegram.org/bot" ++ bot_token
                 ++ "/sendMessage" in
      let data := [ ("chat_id", chat_id);
                    ("text", message);
                    ("parse_mode", "Markdown") ] in
      response <- request w (Post url data 30) ;;
      match response with
      | Responded status reason rurl =>
          match http_error_msg status reason rurl with
          | None => emit (Log INFO "✅ Telegram 消息发送成功")
          | Some e => emit (Log ERROR ("❌ 发送 Telegram 消息失败: " ++ e))
          end
      | TimedOut e | RequestFailed e =>
          emit (Log ERROR ("❌ 发送 Telegram 消息失败: " ++ e))
      | Escaped e => raise e
      end
  | _, _ =>
      emit (Log WARNING
              "⚠️ TG_BOT_TOKEN 或 TG_CHAT_ID 未设置，跳过 Telegram 通知")
  end.

Definition koyeb_url : pystr := "https://app.koyeb.com/v1/apps".

Definition koyeb_headers (token : pystr) : list (pystr * pystr) :=
  [ ("Authorization", "Bearer " ++ token);
    ("Accept", "application/json");
    ("User-Agent", "KoyebKeepAliveScript/1.0") ].

Definition check_koyeb_with_token (name : pyval) (token : pystr)
  : M (bool * pystr) :=
  if negb (truthy (PStr token)) then ret (false, "Token 为空")
  else
    response <- request w (Get koyeb_url (koyeb_headers token) 30) ;;
    match response with
    | Responded status reason rurl =>
        match http_error_msg status reason rurl with
        | None => ret (true, "Token 校验成功")
        | Some e => ret (false, e)
        end
    | TimedOut _ => ret (false, "请求超时")
    | RequestFailed e => ret (false, e)
    | Escaped e => raise e
    end.

(** The three result lines of the loop body. *)
Definition skipped_line (name : pyval) : pystr :=
  "⚠️ 账户: " ++ fmt name ++ nl ++ "Token 未配置，跳过".

Definition success_line (name : pyval) : pystr :=
  "✅ 账户: " ++ fmt name ++ " Token 校验成功".

Definition failure_line (name : pyval) (message : pystr) : pystr :=
  "❌ 账户: " ++ fmt name ++ " Token 校验失败 | 原因: " ++ message.

(** [account.get("name") or account.get("email") or "未命名账号"] *)
Definition account_name (account : pyval) : M pyval :=
  n <- get_method account "name" PNone ;;
  if truthy n then ret n
  else
    e <- get_method account "email" PNone ;;
    if truthy e then ret e else ret (PStr "未命名账号").

(** One turn of the [for] loop; [messages] is the list the turn appends to. *)
Definition loop_body (account : pyval) (messages : list pystr)
  : M (list pystr) :=
  name <- account_name account ;;
  t <- get_method account "token" (PStr []) ;;
  token <- strip_method t ;;
  if negb (truthy (PStr token)) then
    emit (Log WARNING ("⚠️ 账户 " ++ fmt name ++ " 没有配置 token，跳过")) ;;
    ret (messages ++ [skipped_line name])
  else
    emit (Log INFO ("🔍 正在检查账户: " ++ fmt name)) ;;
    r <- check_koyeb_with_token name token ;;
    let '(success, message) := r in
    let result := if success then success_line name
                  else failure_line name message in
    emit (Sleep 5) ;;
    ret (messages ++ [result]).

Fixpoint for_accounts (accounts : list pyval) (messages : list pystr)
  : M (list pystr) :=
  match accounts with
  | [] => ret messages
  | account :: rest =>
      messages' <- loop_body account messages ;;
      for_accounts rest messages'
  end.

Definition summary_of (current_time : pystr) (messages : list pystr) : pystr :=
  "⏰ 北京时间: " ++ current_time ++ nl ++ nl
  ++ join nl messages ++ nl ++ nl ++ "✅ 任务执行完成".

Definition error_message_of (e : exn) : pystr :=
  "❌ 脚本执行出错: " ++ exn_str e.

(** The body of [try:] in [main]. *)
Definition main_try : M unit :=
  koyeb_accounts <- validate_env_variables ;;
  if negb (truthy koyeb_accounts)
  then raise (mk_exn ValueError "❌ 没有找到有效的 Koyeb 账户信息")
  else
    current_time <-
      match add_8_hours (utcnow w) with
      | Some dt => ret (strftime_ymd_hm dt)
      | None => raise (mk_exn OverflowError "date value out of range")
      end ;;
    accounts <- iterate koyeb_accounts ;;
    messages <- for_accounts accounts [] ;;
    let summary := summary_of current_time messages in
    emit (Log INFO "📝 任务完成，发送 Telegram 通知") ;;
    send_tg_message summary.

Definition main : M unit :=
  try_except main_try
    (fun e =>
       let error_message := error_message_of e in
       emit (Log ERROR error_message) ;;
       send_tg_message error_message).

End Script.

(** ** Reading a trace *)

Definition is_get (e : event) : bool :=
  match e with Get _ _ _ => true | _ => false end.

Definition is_post (e : event) : bool :=
  match e with Post _ _ _ => true | _ => false end.

Definition is_sleep (e : event) : bool :=
  match e with Sleep _ => true | _ => false end.

(** The account checks of a run: its GET requests. *)
Definition gets (t : trace) : trace := filter is_get t.

(** The outbound notification calls of a run: its POST requests. *)
Definition posts (t : trace) : trace := filter is_post t.

(** The messages handed to [send_tg_message], in order. *)
Definition notifications (t : trace) : list pystr :=
  flat_map (fun e => match e with Notify m => [m] | _ => [] end) t.

(** Total time slept in a stretch of the trace. *)
Definition pause (t : trace) : Z :=
  fold_right (fun e acc => match e with Sleep n => n + acc | _ => acc end) 0 t.

(** What one turn of the loop adds to the trace: a warning for a skipped
    account, or a check followed by its sleep. *)
Inductive turn : trace -> Prop :=
| turn_skipped msg : turn [Log WARNING msg]
| turn_checked msg token :
    turn [Log INFO msg; Get koyeb_url (koyeb_headers token) 30; Sleep 5].

(** How the loop stops: at the end of the list or at an account it
    cannot process, with nothing more in the trace; or in the middle of a
    check whose request raised an exception that is not a
    [RequestException], with the request made and no sleep after it. *)
Inductive stop : trace -> Prop :=
| stop_clean : stop []
| stop_escaped msg token :
    stop [Log INFO msg; Get koyeb_url (koyeb_headers token) 30].

(** A log record. *)
Definition is_log (e : event) : bool :=
  match e with Log _ _ => true | _ => false end.

(** A trace in which sleeping happens in the turns of the loop only:
    turns, then a stretch without any check or sleep; between the two
    there may be the one check whose request escaped, which the error
    record follows at once. *)
Inductive paced : trace -> Prop :=
| paced_end d : gets d = [] -> pause d = 0 -> paced d
| paced_turn b rest : turn b -> paced rest -> paced (b ++ rest)
| paced_escaped msg token m d :
    gets d = [] -> pause d = 0 ->
    paced (Log INFO msg :: Get koyeb_url (koyeb_headers token) 30
             :: Log ERROR m :: d).

(** ** Text lines and the shape of the time stamp *)

(** [s.split(nl)], the lines of a text *)
Fixpoint split_lines (s : pystr) : list pystr :=
  match s with
  | [] => [[]]
  | c :: r =>
      if c =? 10 then [] :: split_lines r
      else match split_lines r with
           | l :: ls => (c :: l) :: ls
           | [] => [[c]]
           end
  end.









(** ** Accounts the loop can process

    An account the loop body gets through: a [dict] whose ["token"], when
    present, is a [str]. *)
Definition well_formed (account : pyval) : bool :=
  match account with
  | PDict d =>
      match dict_lookup d "token" with
      | None | Some (PStr _) => true
      | Some _ => false
      end
  | _ => false
  end.

(** [a or b] when evaluating [b] has no effect. *)
Definition or_else (a b : pyval) : pyval := if truthy a then a else b.

(** [d.get(k)] *)
Definition get_or_none (d : list (pystr * pyval)) (k : pystr) : pyval :=
  match dict_lookup d k with Some v => v | None => PNone end.

(** The name the loop body shows for a [dict] account. *)
Definition shown_name (d : list (pystr * pyval)) : pyval :=
  or_else (get_or_none d "name")
    (or_else (get_or_none d "email") (PStr "未命名账号")).

(** What [check_koyeb_with_token] makes of what [requests.get] did: a
    verdict, or the exception it lets through. *)
Definition verdict (response : http_outcome) : result (bool * pystr) :=
  match response with
  | Responded status reason rurl =>
      match http_error_msg status reason rurl with
      | None => Ok (true, "Token 校验成功")
      | Some e => Ok (false, e)
      end
  | TimedOut _ => Ok (false, "请求超时")
  | RequestFailed e => Ok (false, e)
  | Escaped e => Raised e
  end.

(** The result line of a checked account, from the verdict. *)
Definition result_line (format_other : pyval -> pystr) (name : pyval)
    (v : bool * pystr) : pystr :=
  let '(success, message) := v in
  if success then success_line format_other name
  else failure_line format_other name message.

(** The token as the loop body reads it: [account.get] on ["token"], with
    the empty string as default. *)
Definition token_value (d : list (pystr * pyval)) : pyval :=
  match dict_lookup d "token" with Some v => v | None => PStr [] end.

(** [line] is the entry of [account] in a run whose trace is [t].  An
    account whose token strips to the empty string has the two-line
    skipped entry.  Any other account has one line, decided by what the
    world answered to a request the trace holds for its token: the success
    line for a response outside 400..599, else the failure line with the
    text of the error. *)
Definition entry_in (format_other : pyval -> pystr) (w : world) (t : trace)
    (account : pyval) (line : pystr) : Prop :=
  match account with
  | PDict d =>
      let name := fmt format_other (shown_name d) in
      match token_value d with
      | PStr s =>
          match strip s with
          | [] => line = "⚠️ 账户: " ++ name ++ nl ++ "Token 未配置，跳过"
          | token =>
              exists pre post,
                t = pre ++ Get koyeb_url (koyeb_headers token) 30
                        :: Sleep 5 :: post
                /\ match http w (pre ++ [Get koyeb_url (koyeb_headers token) 30]) with
                   | Responded status reason url =>
                       match http_error_msg status reason url with
                       | None => line = "✅ 账户: " ++ name ++ " Token 校验成功"
                       | Some e =>
                           line = "❌ 账户: " ++ name
                                  ++ " Token 校验失败 | 原因: " ++ e
                       end
                   | TimedOut _ =>
                       line = "❌ 账户: " ++ name
                              ++ " Token 校验失败 | 原因: 请求超时"
                   | RequestFailed e =>
                       line = "❌ 账户: " ++ name
                              ++ " Token 校验失败 | 原因: " ++ e
                   | Escaped _ => False
                   end
          end
      | _ => False
      end
  | _ => False
  end.


Definition post_returns (w : world) : Prop :=
  forall t url data timeout e,
    http w (t ++ [Post url data timeout]) <> Escaped e.


(** [not v] for what [os.getenv] returns. *)
Definition env_unset (v : option pystr) : bool :=
  match v with
  | None | Some [] => true
  | Some (_ :: _) => false
  end.

(** Both notification credentials are set. *)
Definition telegram_configured (w : world) : bool :=
  negb (env_unset (getenv w "TG_BOT_TOKEN"))
  && negb (env_unset (getenv w "TG_CHAT_ID")).

(** The POST requests one call of [send_tg_message] makes. *)
Definition telegram_post (w : world) (message : pystr) : trace :=
  match getenv w "TG_BOT_TOKEN", getenv w "TG_CHAT_ID" with
  | Some bot_token, Some chat_id =>
      if telegram_configured w
      then [Post ("https://api.telegram.org/bot" ++ bot_token
                  ++ "/sendMessage")
              [ ("chat_id", chat_id); ("text", message);
                ("parse_mode", "Markdown") ] 30]
      else []
  | _, _ => []
  end.

(** What one call of [send_tg_message] adds to the trace after the log
    record [main] writes before it: the call, its POST if any, and its one
    log record, which is missing when the POST raised. *)
Definition closing (w : world) (message : pystr) (d : trace) : Prop :=
  exists l0 m0 tail,
    d = Log l0 m0 :: Notify message :: telegram_post w message ++ tail
    /\ forallb is_log tail = true.

(** No notification request escapes: for want of credentials, or because
    the world lets none escape. *)
Definition sends (w : world) : Prop :=
  telegram_configured w = false \/ post_returns w.

(** The reading "success occurs exactly for 2xx responses" of a check
    started after trace [t]. *)
Definition success_exactly_2xx (w : world) (name : pyval) (token : pystr)
    (t : trace) : Prop :=
  (exists detail,
      fst (check_koyeb_with_token w name token t) = Ok (true, detail))
  <-> (exists status reason url,
          http w (t ++ [Get koyeb_url (koyeb_headers token) 30])
          = Responded status reason url
          /\ 200 <= status < 300).



(** ** Sample worlds, for concrete runs *)

Module Sample.

(** A JSON string literal: the text between double quotes. *)
Definition jstr (s : pystr) : pystr := [34] ++ s ++ [34].

Definition account_text (name token : pystr) : pystr :=
  "{" ++ jstr "name" ++ ": " ++ jstr name ++ ", "
  ++ jstr "token" ++ ": " ++ jstr token ++ "}".

Definition account (name token : pystr) : pyval :=
  PDict [("name", PStr name); ("token", PStr token)].

(** The JSON text of three accounts: [a] with an empty token, [b] with
    the token [valid], [c] with the token [bad]. *)
Definition three_text : pystr :=
  "[" ++ account_text "a" [] ++ ", "
  ++ account_text "b" "valid" ++ ", "
  ++ account_text "c" "bad" ++ "]".

Definition three : list pyval :=
  [account "a" []; account "b" "valid"; account "c" "bad"].

(** The JSON text of one account, [a], with an empty token. *)
Definition one_text : pystr := "[" ++ account_text "a" [] ++ "]".

Definition one : list pyval := [account "a" []].

(** [json.loads], on the few texts the samples use. *)
Definition loads (s : pystr) : option pyval :=
  if pystr_eqb s three_text then Some (PList three)
  else if pystr_eqb s one_text then Some (PList one)
  else if pystr_eqb s "[]" then Some (PList [])
  else if pystr_eqb s "null" then Some PNone
  else None.

Definition format_other (v : pyval) : pystr := "<object>".

Definition env (bindings : list (pystr * pystr)) (k : pystr) : option pystr :=
  match find (fun kv => pystr_eqb (fst kv) k) bindings with
  | Some kv => Some (snd kv)
  | None => None
  end.

Definition telegram : list (pystr * pystr) :=
  [("TG_BOT_TOKEN", "123:abc"); ("TG_CHAT_ID", "42")].

(** The remote ends: the token [valid] is answered with [ok_status],
    any other is refused with 401; Telegram answers 200. *)
Definition remote (ok_status : Z) (ok_reason : pystr) (t : trace)
  : http_outcome :=
  match last t (Sleep 0) with
  | Get url headers _ =>
      match headers with
      | (_, bearer) :: _ =>
          if pystr_eqb bearer "Bearer valid"
          then Responded ok_status ok_reason url
          else Responded 401 "Unauthorized" url
      | [] => Responded 401 "Unauthorized" url
      end
  | Post url _ _ => Responded 200 "OK" url
  | _ => RequestFailed []
  end.

Definition midnight : datetime := mk_datetime 2024 1 1 0 0.

(** Three accounts, Telegram configured. *)
Definition w_three : world :=
  mk_world (env (("KOYEB_ACCOUNTS", three_text) :: telegram))
    midnight (remote 200 "OK").

(** One account with an empty token, Telegram configured. *)
Definition w_one : world :=
  mk_world (env (("KOYEB_ACCOUNTS", one_text) :: telegram))
    midnight (remote 200 "OK").

(** No [KOYEB_ACCOUNTS] at all. *)
Definition w_unset : world :=
  mk_world (env telegram) midnight (remote 200 "OK").

(** [KOYEB_ACCOUNTS] is the JSON text of an empty list. *)
Definition w_empty_list : world :=
  mk_world (env (("KOYEB_ACCOUNTS", "[]") :: telegram))
    midnight (remote 200 "OK").

(** Three accounts, no Telegram credentials. *)
Definition w_no_telegram : world :=
  mk_world (env [("KOYEB_ACCOUNTS", three_text)]) midnight (remote 200 "OK").

(** The check endpoint answers 304 to the valid token. *)
Definition w_304 : world :=
  mk_world (env (("KOYEB_ACCOUNTS", three_text) :: telegram))
    midnight (remote 304 "Not Modified").

End Sample.

(** ** The checks a list of accounts calls for *)

(** The GET request the loop body makes for an account: one, with the
    stripped token, when the account is a [dict] whose token is a [str]
    that does not strip to the empty string; none otherwise. *)
Definition check_of (account : pyval) : trace :=
  match account with
  | PDict d =>
      match token_value d with
      | PStr s =>
          match strip s with
          | [] => []
          | tok => [Get koyeb_url (koyeb_headers tok) 30]
          end
      | _ => []
      end
  | _ => []
  end.

(** A check request whose token is not empty and has no whitespace at
    either end. *)
Definition clean_check (e : event) : Prop :=
  exists token,
    e = Get koyeb_url (koyeb_headers token) 30
    /\ token <> [] /\ strip token = token.

(** A text without a newline in it. *)
Definition no_newline (s : pystr) : bool :=
  forallb (fun c => negb (c =? 10)) s.

(** More sample worlds: remote ends that never answer. *)
Module Unreachable.

Definition silent (t : trace) : http_outcome :=
  match last t (Sleep 0) with
  | Get _ _ _ => TimedOut "HTTPSConnectionPool: Read timed out."
  | _ => RequestFailed "Connection refused"
  end.

Definition w_three : world :=
  mk_world (Sample.env (("KOYEB_ACCOUNTS", Sample.three_text) :: Sample.telegram))
    Sample.midnight silent.


End Unreachable.

(** Remote ends as [requests] treats them: a token outside Latin-1 cannot
    be put in a header, and form data holding a lone surrogate cannot be
    encoded; in both cases the call raises [UnicodeEncodeError], which is
    not a [RequestException].  Otherwise the ends answer as in [Sample]. *)
Module Strict.

Definition latin1 (s : pystr) : bool := forallb (fun c => c <? 256) s.

Definition no_surrogate (s : pystr) : bool :=
  forallb (fun c => (c <? 55296) || (57343 <? c)) s.

Definition remote (t : trace) : http_outcome :=
  match last t (Sleep 0) with
  | Get _ headers _ =>
      if forallb (fun h => latin1 (snd h)) headers
      then Sample.remote 200 "OK" t
      else Escaped (mk_exn UnicodeEncodeError
                      "'latin-1' codec can't encode characters")
  | Post _ data _ =>
      if forallb (fun f => no_surrogate (snd f)) data
      then Sample.remote 200 "OK" t
      else Escaped (mk_exn UnicodeEncodeError
                      "'utf-8' codec can't encode character: surrogates not allowed")
  | _ => Sample.remote 200 "OK" t
  end.

Definition w_three : world :=
  mk_world (Sample.env (("KOYEB_ACCOUNTS", Sample.three_text) :: Sample.telegram))
    Sample.midnight remote.

(** Three accounts with tokens; the second token, [密钥], is outside
    Latin-1. *)
Definition chinese_token : list pyval :=
  [ Sample.account "b" "valid"; Sample.account "k" "密钥";
    Sample.account "c" "bad" ].


(** No [KOYEB_ACCOUNTS], and a chat id that holds a lone surrogate. *)
Definition w_surrogate_chat : world :=
  mk_world (Sample.env [("TG_BOT_TOKEN", "123:abc"); ("TG_CHAT_ID", [52; 56320])])
    Sample.midnight remote.

End Strict.

(** * Properties *)

Arguments str_of_int : simpl never.

(** ** Sanity checks of the string and calendar models *)

Example literal_cjk :
  "Token 为空" = [84; 111; 107; 101; 110; 32; 20026; 31354].
Proof. reflexivity. Qed.

Example literal_emoji : "✅⏰🔍" = [9989; 9200; 128269].
Proof. reflexivity. Qed.

Example str_of_int_401 : str_of_int 401 = "401".
Proof. reflexivity. Qed.

Example strip_example : strip "  koyeb_x y " = "koyeb_x y".
Proof. reflexivity. Qed.

Example strftime_example :
  option_map strftime_ymd_hm (add_8_hours (mk_datetime 2024 2 28 17 5))
  = Some "2024-02-29 01:05".
Proof. reflexivity. Qed.

(** What [not v] rejects among parsed JSON values. *)
Example falsy_values :
  map truthy [PNone; PBool false; PInt 0; PFloat (S754_zero true); PStr [];
              PList []; PDict []]
  = [false; false; false; false; false; false; false].
Proof. reflexivity. Qed.

Example add_8_hours_overflow :
  add_8_hours (mk_datetime 9999 12 31 16 0) = None.
Proof. reflexivity. Qed.

(** ** Traces *)

Lemma notifications_app t1 t2 :
  notifications (t1 ++ t2) = notifications t1 ++ notifications t2.
Proof. apply flat_map_app. Qed.

Lemma gets_app t1 t2 : gets (t1 ++ t2) = gets t1 ++ gets t2.
Proof. apply filter_app. Qed.

Lemma posts_app t1 t2 : posts (t1 ++ t2) = posts t1 ++ posts t2.
Proof. apply filter_app. Qed.

Lemma pause_app t1 t2 : pause (t1 ++ t2) = pause t1 + pause t2.
Proof.
  induction t1 as [|e t1 IH]; simpl; [reflexivity|].
  destruct e; rewrite IH; lia.
Qed.

Lemma turn_no_notification b : turn b -> notifications b = [] /\ posts b = [].
Proof. intros []; split; reflexivity. Qed.

Lemma turns_no_notification bs :
  Forall turn bs -> notifications (concat bs) = [] /\ posts (concat bs) = [].
Proof.
  induction 1 as [|b bs Hb _ [IHn IHp]]; simpl; [split; reflexivity|].
  destruct (turn_no_notification b Hb) as [Hn Hp].
  rewrite notifications_app, posts_app, Hn, Hp, IHn, IHp. split; reflexivity.
Qed.

Lemma logs_quiet tail :
  forallb is_log tail = true ->
  gets tail = [] /\ pause tail = 0 /\ notifications tail = []
  /\ posts tail = [].
Proof.
  induction tail as [|e tail IH]; [now repeat split|].
  cbn [forallb]. intros H. apply andb_prop in H as [He Ht].
  destruct (IH Ht) as (Hg & Hp & Hn & Hq).
  destruct e; try discriminate He. now repeat split.
Qed.

(** ** [str.strip] *)

Lemma lstrip_suffix s : exists p, s = p ++ lstrip s.
Proof.
  induction s as [|c s [p IH]]; [now exists []|].
  cbn [lstrip]. destruct (is_space c); [|now exists []].
  exists (c :: p). cbn [app]. now rewrite <- IH.
Qed.

Lemma lstrip_head s :
  match lstrip s with
  | c :: _ => is_space c = false
  | [] => True
  end.
Proof.
  induction s as [|c s IH]; [exact I|].
  cbn [lstrip]. destruct (is_space c) eqn:Hc; [exact IH|exact Hc].
Qed.

Lemma lstrip_idempotent s : lstrip (lstrip s) = lstrip s.
Proof.
  pose proof (lstrip_head s) as H.
  destruct (lstrip s) as [|c r]; [reflexivity|].
  cbn [lstrip]. now rewrite H.
Qed.

Lemma rstrip_prefix s : exists q, s = rstrip s ++ q.
Proof.
  unfold rstrip. destruct (lstrip_suffix (rev s)) as [p Hp].
  exists (rev p).
  rewrite <- rev_app_distr, <- Hp. now rewrite rev_involutive.
Qed.

Lemma rstrip_idempotent s : rstrip (rstrip s) = rstrip s.
Proof.
  unfold rstrip. now rewrite rev_involutive, lstrip_idempotent.
Qed.

Lemma lstrip_rstrip s : lstrip s = s -> lstrip (rstrip s) = rstrip s.
Proof.
  intros Hs. destruct (rstrip_prefix s) as [q Hq].
  destruct (rstrip s) as [|c r]; [reflexivity|].
  pose proof (lstrip_head s) as Hh. rewrite Hs, Hq in Hh. cbn [app] in Hh.
  cbn [lstrip]. now rewrite Hh.
Qed.

Lemma strip_idempotent s : strip (strip s) = strip s.
Proof.
  unfold strip.
  rewrite (lstrip_rstrip (lstrip s) (lstrip_idempotent s)).
  apply rstrip_idempotent.
Qed.

(** ** The functions of the script, one by one *)

Section Facts.

Variable json_loads : pystr -> option pyval.
Variable format_other : pyval -> pystr.
Variable w : world.

Lemma account_name_dict d t :
  account_name (PDict d) t = (Ok (shown_name d), t).
Proof.
  unfold account_name, shown_name, or_else, get_or_none, get_method, bind, ret.
  destruct (truthy _); [reflexivity|].
  destruct (truthy _); reflexivity.
Qed.

Lemma account_name_not_dict a t :
  (forall d, a <> PDict d) ->
  account_name a t
  = (Raised (mk_exn AttributeError
               ("'" ++ type_name a ++ "' object has no attribute 'get'")), t).
Proof.
  intros H. destruct a; try reflexivity. now contradiction (H items).
Qed.

Lemma telegram_post_cases message :
  (telegram_configured w = false /\ telegram_post w message = [])
  \/ (exists url data,
        telegram_configured w = true
        /\ telegram_post w message = [Post url data 30]).
Proof.
  unfold telegram_post.
  destruct (getenv w "TG_BOT_TOKEN") as [b|] eqn:Hb,
    (getenv w "TG_CHAT_ID") as [c|] eqn:Hc,
    (telegram_configured w) eqn:Ht;
    try (left; split; reflexivity);
    try (right; do 2 eexists; split; reflexivity);
    unfold telegram_configured in Ht; rewrite ?Hb, ?Hc in Ht;
    cbn in Ht; try discriminate Ht;
    destruct b; discriminate Ht.
Qed.

(** [send_tg_message] records its call and makes its POST if both
    credentials are set; then it logs one record and returns, unless the
    POST raised an exception that is not a [RequestException], which it
    lets through. *)
Lemma send_tg_message_spec message t :
  exists r tail,
    send_tg_message w message t
    = (r, t ++ Notify message :: telegram_post w message ++ tail)
    /\ match r with
       | Ok _ => exists l m, tail = [Log l m]
       | Raised e =>
           tail = []
           /\ telegram_post w message <> []
           /\ http w (t ++ Notify message :: telegram_post w message)
              = Escaped e
       end.
Proof.
  unfold send_tg_message, telegram_post, telegram_configured, bind, emit, request.
  destruct (getenv w "TG_BOT_TOKEN") as [[|b bs]|];
    destruct (getenv w "TG_CHAT_ID") as [[|c cs]|]; cbn [env_unset negb andb];
    try (exists (Ok tt); eexists; rewrite <- app_assoc;
         split; [reflexivity|]; do 2 eexists; reflexivity).
  rewrite <- !app_assoc.
  destruct (http w _) as [st rs ur|e|e|e] eqn:Hh;
    [destruct (http_error_msg st rs ur)|..];
    try (exists (Ok tt); eexists; rewrite <- !app_assoc;
         split; [reflexivity|]; do 2 eexists; reflexivity).
  exists (Raised e), []. split; [reflexivity|].
  split; [reflexivity|]. split; [discriminate|reflexivity].
Qed.

Lemma telegram_post_quiet message :
  gets (telegram_post w message) = []
  /\ notifications (telegram_post w message) = []
  /\ pause (telegram_post w message) = 0
  /\ posts (telegram_post w message) = telegram_post w message.
Proof.
  unfold telegram_post.
  destruct (getenv w "TG_BOT_TOKEN"), (getenv w "TG_CHAT_ID"),
    (telegram_configured w); repeat split.
Qed.

Lemma closing_facts message d :
  closing w message d ->
  gets d = [] /\ pause d = 0
  /\ notifications d = [message] /\ posts d = telegram_post w message.
Proof.
  intros (l0 & m0 & tail & -> & Ht).
  destruct (telegram_post_quiet message) as (Hg & Hn & Hp & Hq).
  destruct (logs_quiet tail Ht) as (Hg' & Hp' & Hn' & Hq').
  cbn [gets filter is_get notifications flat_map pause fold_right posts is_post app].
  fold (gets (telegram_post w message ++ tail)).
  fold (notifications (telegram_post w message ++ tail)).
  fold (pause (telegram_post w message ++ tail)).
  fold (posts (telegram_post w message ++ tail)).
  rewrite gets_app, notifications_app, pause_app, posts_app,
    Hg, Hn, Hp, Hq, Hg', Hp', Hn', Hq'.
  cbn. rewrite app_nil_r. repeat split.
Qed.

(** The call of [send_tg_message] after a log record of [main]. *)
Lemma closing_send message t l m :
  exists r d,
    send_tg_message w message (t ++ [Log l m]) = (r, t ++ d)
    /\ closing w message d
    /\ match r with
       | Ok _ => True
       | Raised e =>
           http w (t ++ d) = Escaped e /\ telegram_post w message <> []
       end.
Proof.
  destruct (send_tg_message_spec message (t ++ [Log l m]))
    as (r & tail & Hd & Hr).
  exists r, (Log l m :: Notify message :: telegram_post w message ++ tail).
  rewrite Hd, <- app_assoc. split; [reflexivity|]. split.
  - exists l, m, tail. split; [reflexivity|].
    destruct r; [destruct Hr as (l' & m' & ->)|destruct Hr as (-> & _)];
      reflexivity.
  - destruct r; [exact I|]. destruct Hr as (-> & Hne & Hh).
    rewrite app_nil_r. rewrite <- app_assoc in Hh. now split.
Qed.

Lemma closing_send_returns message t l m :
  sends w ->
  exists d,
    send_tg_message w message (t ++ [Log l m]) = (Ok tt, t ++ d)
    /\ closing w message d.
Proof.
  intros Hs. destruct (closing_send message t l m) as (r & d & Hd & Hc & Hr).
  exists d. split; [|exact Hc]. destruct r as [[]|e]; [exact Hd|].
  exfalso. destruct Hr as (Hh & Hne).
  destruct Hc as (l0 & m0 & tail & -> & _).
  destruct (telegram_post_cases message) as [(Hf & Hp)|(url & data & Ht & Hp)];
    [now rewrite Hp in Hne|].
  destruct Hs as [Hs|Hs]; [congruence|].
  destruct (send_tg_message_spec message (t ++ [Log l m]))
    as (r' & tail' & Hd' & Hr').
  rewrite Hd in Hd'. injection Hd' as <- Htl.
  destruct Hr' as (-> & _ & Hh').
  rewrite Hp in Hh'.
  apply (Hs ((t ++ [Log l m]) ++ [Notify message]) url data 30 e).
  now rewrite <- app_assoc.
Qed.

Lemma check_koyeb_with_token_spec name c token t :
  check_koyeb_with_token w name (c :: token) t
  = (verdict (http w (t ++ [Get koyeb_url (koyeb_headers (c :: token)) 30])),
     t ++ [Get koyeb_url (koyeb_headers (c :: token)) 30]).
Proof.
  unfold check_koyeb_with_token, bind, request, verdict, ret, raise.
  cbn [truthy negb].
  destruct (http w _) as [st rs ur|e|e|e];
    [destruct (http_error_msg st rs ur)|..]; reflexivity.
Qed.

(** One turn of the loop on a [dict], case by case. *)
Lemma loop_body_dict d messages t :
  loop_body format_other w (PDict d) messages t
  = let name := shown_name d in
    match token_value d with
    | PStr s =>
        match strip s with
        | [] =>
            (Ok (messages ++ [skipped_line format_other name]),
             t ++ [Log WARNING ("⚠️ 账户 " ++ fmt format_other name
                                ++ " 没有配置 token，跳过")])
        | c :: tk =>
            let info := Log INFO ("🔍 正在检查账户: " ++ fmt format_other name) in
            let g := Get koyeb_url (koyeb_headers (c :: tk)) 30 in
            match verdict (http w (t ++ [info; g])) with
            | Ok v =>
                (Ok (messages ++ [result_line format_other name v]),
                 t ++ [info; g; Sleep 5])
            | Raised e => (Raised e, t ++ [info; g])
            end
        end
    | v =>
        (Raised (mk_exn AttributeError
                   ("'" ++ type_name v
                    ++ "' object has no attribute 'strip'")), t)
    end.
Proof.
  unfold loop_body. unfold bind at 1. rewrite account_name_dict.
  unfold bind at 1. unfold get_method, ret, token_value.
  destruct (dict_lookup d "token") as [v|]; [destruct v|]; try reflexivity.
  all: unfold bind at 1; unfold strip_method, ret;
    destruct (strip _) as [|c tk]; cbn [truthy negb];
    [ reflexivity
    | unfold bind at 1, emit; unfold bind at 1;
      rewrite check_koyeb_with_token_spec; cbv zeta;
      rewrite <- !app_assoc; cbn [app];
      destruct (verdict _) as [[[] m]|e]; unfold bind, emit, ret;
      rewrite <- ?app_assoc; reflexivity ].
Qed.

Lemma loop_body_not_dict a messages t :
  (forall d, a <> PDict d) ->
  loop_body format_other w a messages t
  = (Raised (mk_exn AttributeError
               ("'" ++ type_name a ++ "' object has no attribute 'get'")), t).
Proof.
  intros H. unfold loop_body, bind. now rewrite account_name_not_dict.
Qed.

End Facts.

(** ** The loop, account by account *)

Section Loop.

Variable json_loads : pystr -> option pyval.
Variable format_other : pyval -> pystr.
Variable w : world.

Lemma snoc2 {A} (t : list A) (a b : A) : (t ++ [a]) ++ [b] = t ++ [a; b].
Proof. now rewrite <- app_assoc. Qed.


(** A turn of the loop does one of three things: it raises before any
    effect, at an account it cannot process; it raises in the middle of a
    check, the request made and escaped; or it appends the account's entry
    and adds to the trace the check the account calls for, with five
    seconds of sleep. *)
Lemma loop_body_cases a messages t :
  (exists e,
      loop_body format_other w a messages t = (Raised e, t)
      /\ exn_cls e = AttributeError /\ well_formed a = false)
  \/ (exists e msg token,
        loop_body format_other w a messages t
        = (Raised e, t ++ [Log INFO msg; Get koyeb_url (koyeb_headers token) 30])
        /\ check_of a = [Get koyeb_url (koyeb_headers token) 30]
        /\ http w (t ++ [Log INFO msg; Get koyeb_url (koyeb_headers token) 30])
           = Escaped e
        /\ well_formed a = true)
  \/ (exists line b,
        loop_body format_other w a messages t = (Ok (messages ++ [line]), t ++ b)
        /\ turn b
        /\ gets b = check_of a
        /\ pause b = 5 * Z.of_nat (length (check_of a))
        /\ well_formed a = true
        /\ entry_in format_other w (t ++ b) a line).
Proof.
  destruct a as [| | | | | |d];
    try (left; eexists; split; [apply loop_body_not_dict; discriminate|];
         split; reflexivity).
  rewrite loop_body_dict. unfold check_of, well_formed, entry_in, token_value.
  cbv zeta.
  destruct (dict_lookup d "token") as [[| | | |s| |]|];
    try (left; eexists; repeat split; reflexivity).
  - destruct (strip s) as [|c tk].
    + right; right. do 2 eexists. split; [reflexivity|].
      split; [constructor|]. repeat split.
    + unfold verdict.
      destruct (http w (t ++ _)) as [st rs ur|e|e|e] eqn:Hh.
      * right; right. unfold result_line, success_line, failure_line.
        destruct (http_error_msg st rs ur) as [m|] eqn:Hm;
          do 2 eexists; (split; [reflexivity|]);
          (split; [constructor|]); repeat split;
          exists (t ++ [Log INFO ("🔍 正在检查账户: "
                                  ++ fmt format_other (shown_name d))]), [];
          (split; [rewrite <- app_assoc; reflexivity|]);
          rewrite snoc2, Hh, Hm; reflexivity.
      * right; right. do 2 eexists. split; [reflexivity|].
        split; [constructor|]. repeat split.
        exists (t ++ [Log INFO ("🔍 正在检查账户: "
                                ++ fmt format_other (shown_name d))]), [].
        split; [rewrite <- app_assoc; reflexivity|].
        rewrite snoc2, Hh. reflexivity.
      * right; right. do 2 eexists. split; [reflexivity|].
        split; [constructor|]. repeat split.
        exists (t ++ [Log INFO ("🔍 正在检查账户: "
                                ++ fmt format_other (shown_name d))]), [].
        split; [rewrite <- app_assoc; reflexivity|].
        rewrite snoc2, Hh. reflexivity.
      * right; left. do 3 eexists. split; [reflexivity|].
        split; [reflexivity|]. split; [exact Hh|reflexivity].
  - cbn [strip lstrip rstrip rev]. right; right. do 2 eexists.
    split; [reflexivity|]. split; [constructor|]. repeat split.
Qed.


(** What the loop leaves in the trace: turns, and the check that escaped
    if one did. *)
Lemma for_accounts_shape accounts : forall messages t,
  exists turns ab,
    snd (for_accounts format_other w accounts messages t)
    = t ++ concat turns ++ ab
    /\ Forall turn turns /\ stop ab
    /\ match fst (for_accounts format_other w accounts messages t) with
       | Ok _ => ab = []
       | Raised e =>
           ab = [] \/ http w (t ++ concat turns ++ ab) = Escaped e
       end.
Proof.
  induction accounts as [|a rest IH]; intros messages t.
  - exists [], []. cbn [for_accounts ret concat app fst snd].
    rewrite app_nil_r.
    split; [reflexivity|]. split; [constructor|]. split; constructor.
  - cbn [for_accounts]. unfold bind.
    destruct (loop_body_cases a messages t)
      as [(e & He & _)|[(e & msg & token & He & _ & Hh & _)
                       |(line & b & Hb & Ht & _)]].
    + rewrite He. exists [], []. cbn [concat app fst snd]. rewrite app_nil_r.
      split; [reflexivity|]. split; [constructor|]. split; [constructor|].
      now left.
    + rewrite He. exists [], [Log INFO msg; Get koyeb_url (koyeb_headers token) 30].
      cbn [concat app fst snd].
      split; [reflexivity|]. split; [constructor|]. split; [constructor|].
      now right.
    + rewrite Hb.
      destruct (IH (messages ++ [line]) (t ++ b)) as (turns & ab & Hs & Hf & Ha & Hr).
      exists (b :: turns), ab. cbn [concat]. rewrite <- !app_assoc in *.
      split; [exact Hs|]. split; [now constructor|]. split; [exact Ha|exact Hr].
Qed.

Lemma stop_quiet ab : stop ab -> notifications ab = [] /\ posts ab = [].
Proof. intros []; split; reflexivity. Qed.

Lemma for_accounts_quiet accounts messages t :
  exists d,
    snd (for_accounts format_other w accounts messages t) = t ++ d
    /\ notifications d = [] /\ posts d = [].
Proof.
  destruct (for_accounts_shape accounts messages t)
    as (turns & ab & Hs & Hf & Ha & _).
  exists (concat turns ++ ab). split; [exact Hs|].
  destruct (turns_no_notification turns Hf) as [Hn Hp].
  destruct (stop_quiet ab Ha) as [Hn' Hp'].
  now rewrite notifications_app, posts_app, Hn, Hp, Hn', Hp'.
Qed.


(** The loop stops with an exception at the first account that is not
    well formed, if not before. *)
Lemma for_accounts_ill_formed accounts :
  forallb well_formed accounts = false ->
  forall messages t,
  exists e, fst (for_accounts format_other w accounts messages t) = Raised e.
Proof.
  induction accounts as [|a rest IH]; intros Hwf messages t;
    [discriminate Hwf|].
  cbn [forallb] in Hwf. cbn [for_accounts]. unfold bind.
  destruct (loop_body_cases a messages t)
    as [(e & He & _)|[(e & msg & token & He & _)
                     |(line & b & Hb & _ & _ & _ & Ha & _)]].
  - rewrite He. now exists e.
  - rewrite He. now exists e.
  - rewrite Hb. rewrite Ha in Hwf. apply (IH Hwf).
Qed.

End Loop.

(** ** The run as a whole *)

Section Run.

Variable json_loads : pystr -> option pyval.
Variable format_other : pyval -> pystr.
Variable w : world.

Lemma validate_env_variables_pure t :
  exists r, validate_env_variables json_loads w t = (r, t).
Proof.
  unfold validate_env_variables, raise, ret.
  destruct (getenv w _) as [[|c s]|]; try (eexists; reflexivity).
  destruct (json_loads _); eexists; reflexivity.
Qed.

Lemma iterate_pure v t : exists r, iterate v t = (r, t).
Proof. destruct v; eexists; reflexivity. Qed.

(** The [try] body: a stretch of the loop from the start, then an
    exception, or the summary handed to [send_tg_message]. *)
Lemma main_try_loop :
  exists accounts (r : result (pystr * list pystr)),
    main_try json_loads format_other w []
    = match r with
      | Raised e =>
          (Raised e, snd (for_accounts format_other w accounts [] []))
      | Ok (current_time, messages) =>
          send_tg_message w (summary_of current_time messages)
            (snd (for_accounts format_other w accounts [] [])
               ++ [Log INFO "📝 任务完成，发送 Telegram 通知"])
      end
    /\ match r with
       | Raised e =>
           accounts = []
           \/ fst (for_accounts format_other w accounts [] []) = Raised e
       | Ok (_, messages) =>
           fst (for_accounts format_other w accounts [] []) = Ok messages
       end.
Proof.
  unfold main_try. unfold bind at 1.
  destruct (validate_env_variables_pure []) as [[v|e] Hv];
    rewrite Hv; [|exists [], (Raised e); split; [reflexivity|now left]].
  destruct (truthy v); cbn [negb];
    [|exists [], (Raised (mk_exn ValueError "❌ 没有找到有效的 Koyeb 账户信息"));
      split; [reflexivity|now left]].
  unfold bind at 1.
  destruct (add_8_hours (utcnow w)) as [dt|];
    [|exists [], (Raised (mk_exn OverflowError "date value out of range"));
      split; [reflexivity|now left]].
  unfold ret at 1. unfold bind at 1.
  destruct (iterate_pure v []) as [[accounts|e] Hi]; rewrite Hi;
    [|exists [], (Raised e); split; [reflexivity|now left]].
  unfold bind at 1. exists accounts.
  destruct (for_accounts format_other w accounts [] []) as [[messages|e] t'].
  - exists (Ok (strftime_ymd_hm dt, messages)). split; reflexivity.
  - exists (Raised e). split; [reflexivity|now right].
Qed.

(** When the [try] body raises, the run is what it did, the error
    record, and the call of [send_tg_message] with the error line. *)
Lemma main_raised e t0 :
  main_try json_loads format_other w [] = (Raised e, t0) ->
  main json_loads format_other w []
  = send_tg_message w (error_message_of e)
      (t0 ++ [Log ERROR (error_message_of e)]).
Proof. intros He. unfold main, try_except. now rewrite He. Qed.

(** Every run: a stretch of the loop, then a closing stretch with no
    check and no sleep in it, which starts with the error record when the
    loop raised.  The run raises only the exception that escaped its last
    request. *)
Lemma main_tail :
  exists accounts r d,
    main json_loads format_other w []
    = (r, snd (for_accounts format_other w accounts [] []) ++ d)
    /\ gets d = [] /\ pause d = 0
    /\ match fst (for_accounts format_other w accounts [] []) with
       | Raised _ => exists m d', d = Log ERROR m :: d'
       | Ok _ => True
       end
    /\ match r with
       | Ok _ => True
       | Raised e =>
           http w (snd (for_accounts format_other w accounts [] []) ++ d)
           = Escaped e
       end.
Proof.
  destruct main_try_loop as (accounts & r & Hr & Hf). exists accounts.
  set (L := snd (for_accounts format_other w accounts [] [])) in *.
  destruct r as [[ct ms]|e].
  - rewrite Hf. unfold main, try_except. rewrite Hr.
    destruct (closing_send w (summary_of ct ms) L
                INFO "📝 任务完成，发送 Telegram 通知")
      as (r1 & d1 & Hd1 & Hc1 & Hr1).
    rewrite Hd1. destruct (closing_facts w _ d1 Hc1) as (Hg1 & Hp1 & _).
    destruct r1 as [[]|e1].
    + exists (Ok tt), d1. now repeat split.
    + cbv zeta. unfold bind at 1, emit.
      destruct (closing_send w (error_message_of e1) (L ++ d1)
                  ERROR (error_message_of e1))
        as (r2 & d2 & Hd2 & Hc2 & Hr2).
      rewrite Hd2. destruct (closing_facts w _ d2 Hc2) as (Hg2 & Hp2 & _).
      exists r2, (d1 ++ d2). rewrite <- app_assoc.
      split; [reflexivity|]. rewrite gets_app, pause_app, Hg1, Hg2, Hp1, Hp2.
      repeat split. destruct r2; [exact I|].
      rewrite app_assoc. apply Hr2.
  - rewrite (main_raised e L Hr).
    destruct (send_tg_message_spec w (error_message_of e)
                (L ++ [Log ERROR (error_message_of e)]))
      as (r2 & tail & Hd & Hr2).
    rewrite Hd, <- app_assoc.
    exists r2, ([Log ERROR (error_message_of e)]
                ++ Notify (error_message_of e)
                   :: telegram_post w (error_message_of e) ++ tail).
    split; [reflexivity|].
    assert (Hc : closing w (error_message_of e)
                   ([Log ERROR (error_message_of e)]
                    ++ Notify (error_message_of e)
                       :: telegram_post w (error_message_of e) ++ tail)).
    { exists ERROR, (error_message_of e), tail. split; [reflexivity|].
      destruct r2; [destruct Hr2 as (l & m & ->)|destruct Hr2 as (-> & _)];
        reflexivity. }
    destruct (closing_facts w _ _ Hc) as (Hg & Hp & _).
    split; [exact Hg|]. split; [exact Hp|]. split.
    + destruct (fst _); [exact I|]. now do 2 eexists.
    + destruct r2; [exact I|]. destruct Hr2 as (-> & _ & Hh).
      rewrite app_nil_r. rewrite <- app_assoc in Hh. exact Hh.
Qed.

(** Where no notification request escapes, every run returns and hands
    exactly one message to [send_tg_message]; its POST requests are those
    of that one call. *)
Lemma main_notifies_once :
  sends w ->
  exists t message,
    main json_loads format_other w [] = (Ok tt, t)
    /\ notifications t = [message]
    /\ posts t = telegram_post w message
    /\ (length (posts t) <= 1)%nat
    /\ ((exists current_time messages,
           message = summary_of current_time messages)
        \/ (exists e, message = "❌ 脚本执行出错: " ++ exn_str e)).
Proof.
  intros Hs.
  destruct main_try_loop as (accounts & r & Hr & _).
  destruct (for_accounts_quiet format_other w accounts [] [])
    as (L & HL & Hn & Hq). cbn [app] in HL. rewrite HL in Hr.
  assert (Hone : forall message l m,
             exists d,
               send_tg_message w message (L ++ [Log l m]) = (Ok tt, L ++ d)
               /\ notifications (L ++ d) = [message]
               /\ posts (L ++ d) = telegram_post w message
               /\ (length (posts (L ++ d)) <= 1)%nat).
  { intros message l m.
    destruct (closing_send_returns w message L l m Hs) as (d & Hd & Hc).
    exists d. split; [exact Hd|].
    destruct (closing_facts w _ d Hc) as (_ & _ & Hdn & Hdp).
    rewrite notifications_app, posts_app, Hn, Hq, Hdn, Hdp. cbn [app].
    repeat split.
    destruct (telegram_post_cases w message) as [(_ & ->)|(? & ? & _ & ->)];
      cbn; lia. }
  destruct r as [[ct ms]|e].
  - destruct (Hone (summary_of ct ms) INFO "📝 任务完成，发送 Telegram 通知")
      as (d & Hd & Hfacts).
    exists (L ++ d), (summary_of ct ms).
    split; [unfold main, try_except; now rewrite Hr, Hd|].
    destruct Hfacts as (H1 & H2 & H3). repeat split; try assumption.
    left. now exists ct, ms.
  - destruct (Hone (error_message_of e) ERROR (error_message_of e))
      as (d & Hd & Hfacts).
    exists (L ++ d), (error_message_of e).
    split; [now rewrite (main_raised e L Hr)|].
    destruct Hfacts as (H1 & H2 & H3). repeat split; try assumption.
    right. now exists e.
Qed.


(** When the [try] body raises, what the run adds: the error record, the
    one call of [send_tg_message], its POST if any; the run returns
    unless that POST escaped. *)
Lemma main_error_path e t0 :
  main_try json_loads format_other w [] = (Raised e, t0) ->
  let run := main json_loads format_other w [] in
  run = send_tg_message w (error_message_of e)
          (t0 ++ [Log ERROR (error_message_of e)])
  /\ exists d,
       snd run = t0 ++ d
       /\ gets d = []
       /\ notifications d = [error_message_of e]
       /\ posts d = telegram_post w (error_message_of e)
       /\ match fst run with
          | Ok _ => True
          | Raised x => http w (snd run) = Escaped x
          end.
Proof.
  intros He. cbv zeta. rewrite (main_raised e t0 He).
  split; [reflexivity|].
  destruct (closing_send w (error_message_of e) t0 ERROR (error_message_of e))
    as (r & d & Hd & Hc & Hr).
  rewrite Hd. cbn [fst snd]. exists d. split; [reflexivity|].
  destruct (closing_facts w _ d Hc) as (Hg & _ & Hn & Hp).
  repeat split; try assumption. destruct r; [exact I|apply Hr].
Qed.

End Run.

(** ** The calendar *)











(** [add_8_hours] fails only where Python overflows: in the last eight
    hours of 9999-12-31. *)
Lemma add_8_hours_total dt :
  valid_datetime dt ->
  add_8_hours dt = None
  <-> year dt = MAXYEAR /\ month dt = 12 /\ day dt = 31 /\ 16 <= hour dt.
Proof.
  intros (Hy & Hm & Hd & Hh & Hn). unfold add_8_hours, next_day.
  destruct (Z.ltb_spec (hour dt + 8) 24); [split; [discriminate|lia]|].
  destruct (Z.ltb_spec (day dt) (days_in_month (year dt) (month dt))).
  { split; [discriminate|]. intros (_ & Hm' & Hd' & _).
    rewrite Hm' in *. change (days_in_month (year dt) 12) with 31 in *. lia. }
  destruct (Z.ltb_spec (month dt) 12).
  { split; [discriminate|lia]. }
  destruct (Z.ltb_spec (year dt) MAXYEAR).
  { split; [discriminate|lia]. }
  split; [intros _|reflexivity].
  assert (Hm' : month dt = 12) by lia. rewrite Hm' in *.
  change (days_in_month (year dt) 12) with 31 in *. lia.
Qed.


(** ** The checks of a run *)

Section Checks.

Variable json_loads : pystr -> option pyval.
Variable format_other : pyval -> pystr.
Variable w : world.

Lemma check_of_clean a : Forall clean_check (check_of a).
Proof.
  destruct a as [| | | | | |d]; try constructor. unfold check_of.
  destruct (token_value d) as [| | | |s| |]; try constructor.
  destruct (strip s) as [|c tk] eqn:Hs; constructor; [|constructor].
  exists (c :: tk). split; [reflexivity|]. split; [discriminate|].
  rewrite <- Hs. apply strip_idempotent.
Qed.

(** Whatever the accounts are, every check the loop makes is a clean
    one. *)
Lemma for_accounts_clean accounts : forall messages t,
  Forall clean_check (gets t) ->
  Forall clean_check (gets (snd (for_accounts format_other w accounts messages t))).
Proof.
  induction accounts as [|a rest IH]; intros messages t Ht; [exact Ht|].
  cbn [for_accounts]. unfold bind.
  destruct (loop_body_cases format_other w a messages t)
    as [(e & He & _)|[(e & msg & token & He & Hc & _)
                     |(line & b & Hb & _ & Hg & _)]].
  - rewrite He. exact Ht.
  - rewrite He. cbn [snd]. rewrite gets_app.
    apply Forall_app. split; [exact Ht|].
    change (gets [Log INFO msg; Get koyeb_url (koyeb_headers token) 30])
      with [Get koyeb_url (koyeb_headers token) 30].
    rewrite <- Hc. apply check_of_clean.
  - rewrite Hb. apply IH. rewrite gets_app, Hg.
    apply Forall_app. split; [exact Ht|apply check_of_clean].
Qed.

End Checks.

(** ** The pause after each check *)

Lemma gets_middle pre g post :
  is_get g = true -> gets (pre ++ g :: post) <> [].
Proof.
  intros Hg H. unfold gets in H. rewrite filter_app in H.
  cbn [filter] in H. rewrite Hg in H.
  destruct (filter is_get pre); cbn [app] in H; discriminate H.
Qed.

(** In a paced trace every check is followed at once by its sleep, or,
    when its request escaped, by the error record, with no check after
    it. *)
Lemma paced_sleep_follows t :
  paced t ->
  forall pre g post,
    t = pre ++ g :: post -> is_get g = true ->
    (exists post', post = Sleep 5 :: post')
    \/ (exists m post', post = Log ERROR m :: post' /\ gets post' = []).
Proof.
  induction 1 as [d Hd _|b rest Hb _ IH|msg token m d Hd _];
    intros pre g post Heq Hg.
  - subst d. now apply gets_middle in Hd.
  - destruct Hb as [msg|msg token].
    + destruct pre as [|p pre]; cbn [app] in Heq; injection Heq as Hh Ht.
      * subst g. discriminate Hg.
      * exact (IH pre g post Ht Hg).
    + destruct pre as [|p1 [|p2 [|p3 pre]]]; cbn [app] in Heq.
      * injection Heq as Hh _. subst g. discriminate Hg.
      * injection Heq as _ _ Ht. left. now exists rest.
      * injection Heq as _ _ Hh _. subst g. discriminate Hg.
      * injection Heq as _ _ _ Ht. exact (IH pre g post Ht Hg).
  - destruct pre as [|p1 [|p2 [|p3 pre]]]; cbn [app] in Heq.
    + injection Heq as Hh _. subst g. discriminate Hg.
    + injection Heq as _ _ Ht. right. exists m, d. now split.
    + injection Heq as _ _ Hh _. subst g. discriminate Hg.
    + injection Heq as _ _ _ Ht. subst d. now apply gets_middle in Hd.
Qed.

Lemma paced_quiet_before_check t :
  paced t ->
  forall mid g post,
    t = mid ++ g :: post -> is_get g = true -> gets mid = [] -> pause mid = 0.
Proof.
  induction 1 as [d Hd _|b rest Hb _ IH|msg token m d Hd _];
    intros mid g post Heq Hg Hm.
  - subst d. now apply gets_middle in Hd.
  - destruct Hb as [msg|msg token].
    + destruct mid as [|p mid]; cbn [app] in Heq; injection Heq as Hh Ht.
      * subst g. discriminate Hg.
      * subst p. exact (IH mid g post Ht Hg Hm).
    + destruct mid as [|p1 [|p2 mid]]; cbn [app] in Heq.
      * injection Heq as Hh _. subst g. discriminate Hg.
      * injection Heq as Hh _ _. subst p1. reflexivity.
      * injection Heq as H1 H2 _. subst p1 p2. discriminate Hm.
  - destruct mid as [|p1 [|p2 mid]]; cbn [app] in Heq.
    + injection Heq as Hh _. subst g. discriminate Hg.
    + injection Heq as Hh _ _. subst p1. reflexivity.
    + injection Heq as H1 H2 _. subst p1 p2. discriminate Hm.
Qed.

Lemma paced_between_checks t :
  paced t ->
  forall pre g1 mid g2 post,
    t = pre ++ g1 :: mid ++ g2 :: post ->
    is_get g1 = true -> is_get g2 = true -> gets mid = [] ->
    pause mid = 5.
Proof.
  induction 1 as [d Hd _|b rest Hb Hr IH|msg token m d Hd _];
    intros pre g1 mid g2 post Heq H1 H2 Hm.
  - subst d. now apply gets_middle in Hd.
  - destruct Hb as [msg|msg token].
    + destruct pre as [|p pre]; cbn [app] in Heq; injection Heq as Hh Ht.
      * subst g1. discriminate H1.
      * exact (IH pre g1 mid g2 post Ht H1 H2 Hm).
    + destruct pre as [|p1 [|p2 [|p3 pre]]]; cbn [app] in Heq.
      * injection Heq as Hh _. subst g1. discriminate H1.
      * injection Heq as _ _ Ht.
        destruct mid as [|m1 mid]; cbn [app] in Ht; injection Ht as Hh Ht.
        -- subst g2. discriminate H2.
        -- subst m1. cbn [gets filter is_get] in Hm.
           cbn [pause fold_right].
           fold (pause mid).
           rewrite (paced_quiet_before_check rest Hr mid g2 post Ht H2 Hm).
           reflexivity.
      * injection Heq as _ _ Hh _. subst g1. discriminate H1.
      * injection Heq as _ _ _ Ht.
        exact (IH pre g1 mid g2 post Ht H1 H2 Hm).
  - exfalso.
    destruct pre as [|p1 [|p2 [|p3 pre]]]; cbn [app] in Heq.
    + injection Heq as Hh _. subst g1. discriminate H1.
    + injection Heq as _ _ Ht.
      destruct mid as [|m1 mid]; cbn [app] in Ht; injection Ht as Hh Ht.
      * subst g2. discriminate H2.
      * subst d. now apply gets_middle in Hd.
    + injection Heq as _ _ Hh _. subst g1. discriminate H1.
    + injection Heq as _ _ _ Ht. subst d. now apply gets_middle in Hd.
Qed.

Lemma turns_paced turns d :
  Forall turn turns -> paced d -> paced (concat turns ++ d).
Proof.
  induction 1 as [|b bs Hb _ IH]; intros Hd; [exact Hd|].
  cbn [concat]. rewrite <- app_assoc. apply paced_turn; [exact Hb|exact (IH Hd)].
Qed.


Lemma main_paced
    (json_loads : pystr -> option pyval) (format_other : pyval -> pystr)
    (w : world) :
  paced (snd (main json_loads format_other w [])).
Proof.
  destruct (main_tail json_loads format_other w)
    as (accounts & r & d & Hm & Hg & Hp & Hf & _).
  rewrite Hm. cbn [snd].
  destruct (for_accounts_shape format_other w accounts [] [])
    as (turns & ab & Hs & Hturns & Hab & Hr).
  cbn [app] in Hs. rewrite Hs, <- app_assoc.
  apply turns_paced; [exact Hturns|].
  destruct Hab as [|msg token]; [now apply paced_end|].
  destruct (fst (for_accounts format_other w accounts [] []));
    [discriminate Hr|].
  destruct Hf as (m & d' & ->). cbn [app].
  apply paced_escaped; [exact Hg|exact Hp].
Qed.


(** ** Sample remote ends let no request escape *)


Lemma silent_returns t e : Unreachable.silent t <> Escaped e.
Proof.
  unfold Unreachable.silent. destruct (last t (Sleep 0)); discriminate.
Qed.

(** ** The normal path *)


(** ** The claims *)




(** C2 (as stated, refuted) — a 304 answer is not a 2xx response, and
    [check_koyeb_with_token] reports success for it: [raise_for_status]
    raises for 4xx and 5xx only. *)
Lemma C2_counterexample :
  ~ success_exactly_2xx Sample.w_304 (PStr "b") "valid" [].
Proof.
  intros [H _].
  destruct H as (status & reason & url & Hr & Hs).
  - exists "Token 校验成功". vm_compute. reflexivity.
  - vm_compute in Hr. injection Hr as <- _ _. lia.
Qed.


(** C2 (amended) — For a non-empty token, [check_koyeb_with_token] makes
    one GET.  When [requests.get] raises an exception that is not a
    [RequestException], the function classifies nothing and lets it
    through.  Otherwise it returns: a 2xx response gives
    [(True, "Token 校验成功")]; a 4xx or 5xx response gives [False] with the
    text of the [HTTPError], which starts with the status code and carries
    the reason phrase unchanged.  Success occurs exactly when a response
    arrives whose status is outside 400..599: every 2xx response, and also
    a 1xx or 3xx one. *)
Theorem C2_check_classifies_by_status
    (w : world) (name : pyval) (c : Z) (tk : pystr) (t : trace) :
  let token := c :: tk in
  let g := Get koyeb_url (koyeb_headers token) 30 in
  match http w (t ++ [g]) with
  | Escaped e => check_koyeb_with_token w name token t = (Raised e, t ++ [g])
  | _ =>
      exists success detail,
        check_koyeb_with_token w name token t = (Ok (success, detail), t ++ [g])
        /\ (success = true
            <-> exists status reason url,
                  http w (t ++ [g]) = Responded status reason url
                  /\ ~ (400 <= status < 600))
        /\ (forall status reason url,
              http w (t ++ [g]) = Responded status reason url ->
              (200 <= status < 300 ->
                 success = true /\ detail = "Token 校验成功")
              /\ (400 <= status < 500 ->
                    success = false
                    /\ detail = str_of_int status ++ " Client Error: " ++ reason
                                 ++ " for url: " ++ url)
              /\ (500 <= status < 600 ->
                    success = false
                    /\ detail = str_of_int status ++ " Server Error: " ++ reason
                                 ++ " for url: " ++ url))
  end.
Proof.
  cbv zeta. rewrite check_koyeb_with_token_spec.
  destruct (http w _) as [st rs ur|e|e|e] eqn:Hh; unfold verdict, http_error_msg.
  - destruct (Z.leb_spec 400 st), (Z.ltb_spec st 500),
      (Z.leb_spec 500 st), (Z.ltb_spec st 600); cbn [andb];
      do 2 eexists; (split; [reflexivity|]); split;
      try (split; [intros _; exists st, rs, ur; split; [reflexivity|lia]
                  | reflexivity]);
      try (split; [discriminate
                  | intros (s' & r' & u' & Heq & Hn); injection Heq as <- _ _; lia]);
      intros s' r' u' Heq; injection Heq as <- <- <-;
      repeat split; intros; try lia; reflexivity.
  - do 2 eexists. split; [reflexivity|]. split.
    + split; [discriminate|]. intros (s' & r' & u' & Heq & _). discriminate.
    + intros s' r' u' Heq. discriminate.
  - do 2 eexists. split; [reflexivity|]. split.
    + split; [discriminate|]. intros (s' & r' & u' & Heq & _). discriminate.
    + intros s' r' u' Heq. discriminate.
  - reflexivity.
Qed.

Lemma C2_witness :
  let token := "bad" in
  let g := Get koyeb_url (koyeb_headers token) 30 in
  exists success detail,
    check_koyeb_with_token Sample.w_three (PStr "c") token []
    = (Ok (success, detail), [] ++ [g])
    /\ (success = true
        <-> exists status reason url,
              http Sample.w_three ([] ++ [g]) = Responded status reason url
              /\ ~ (400 <= status < 600))
    /\ (forall status reason url,
          http Sample.w_three ([] ++ [g]) = Responded status reason url ->
          (200 <= status < 300 ->
             success = true /\ detail = "Token 校验成功")
          /\ (400 <= status < 500 ->
                success = false
                /\ detail = str_of_int status ++ " Client Error: " ++ reason
                             ++ " for url: " ++ url)
          /\ (500 <= status < 600 ->
                success = false
                /\ detail = str_of_int status ++ " Server Error: " ++ reason
                             ++ " for url: " ++ url)).
Proof.
  exact (C2_check_classifies_by_status Sample.w_three (PStr "c") 98 "ad" []).
Defined.

(** What [requests.get] does with a token outside Latin-1, and what
    [check_koyeb_with_token] does then. *)
Example check_with_a_chinese_token :
  check_koyeb_with_token Strict.w_three (PStr "k") "密钥" []
  = (Raised (mk_exn UnicodeEncodeError "'latin-1' codec can't encode characters"),
     [Get koyeb_url (koyeb_headers "密钥") 30]).
Proof. vm_compute. reflexivity. Qed.

(** C3 — If [KOYEB_ACCOUNTS] is unset, empty, or not valid JSON, then
    [validate_env_variables] raises [ValueError] (the script's configuration
    error); the run performs no account check and calls [send_tg_message]
    exactly once, with the error line that embeds the exception's text.
    The run returns, unless the POST of that one call raised an exception
    that is not a [RequestException]: the run then ends with it. *)
Theorem C3_config_fault_one_error_notification
    (json_loads : pystr -> option pyval) (format_other : pyval -> pystr)
    (w : world) :
  env_unset (getenv w "KOYEB_ACCOUNTS") = true
  \/ (exists s, getenv w "KOYEB_ACCOUNTS" = Some s /\ json_loads s = None) ->
  exists e,
    (forall t, validate_env_variables json_loads w t = (Raised e, t))
    /\ exn_cls e = ValueError
    /\ exn_str e
       = (if env_unset (getenv w "KOYEB_ACCOUNTS")
          then "❌ KOYEB_ACCOUNTS 环境变量未设置或格式错误"
          else "❌ KOYEB_ACCOUNTS JSON 格式无效")
    /\ let run := main json_loads format_other w [] in
       run = send_tg_message w ("❌ 脚本执行出错: " ++ exn_str e)
               [Log ERROR ("❌ 脚本执行出错: " ++ exn_str e)]
       /\ gets (snd run) = []
       /\ notifications (snd run) = ["❌ 脚本执行出错: " ++ exn_str e]
       /\ posts (snd run)
          = telegram_post w ("❌ 脚本执行出错: " ++ exn_str e)
       /\ match fst run with
          | Ok _ => True
          | Raised x => http w (snd run) = Escaped x
          end.
Proof.
  intros H.
  assert (Hv : exists e,
             exn_cls e = ValueError
             /\ exn_str e
                = (if env_unset (getenv w "KOYEB_ACCOUNTS")
                   then "❌ KOYEB_ACCOUNTS 环境变量未设置或格式错误"
                   else "❌ KOYEB_ACCOUNTS JSON 格式无效")
             /\ forall t, validate_env_variables json_loads w t = (Raised e, t)).
  { unfold validate_env_variables.
    destruct H as [H|(s & Hs & Hl)].
    - exists (mk_exn ValueError "❌ KOYEB_ACCOUNTS 环境变量未设置或格式错误").
      destruct (getenv w "KOYEB_ACCOUNTS") as [[|c s]|]; try discriminate H;
        repeat split.
    - rewrite Hs. destruct s as [|c s].
      + exists (mk_exn ValueError "❌ KOYEB_ACCOUNTS 环境变量未设置或格式错误").
        repeat split.
      + rewrite Hl.
        exists (mk_exn ValueError "❌ KOYEB_ACCOUNTS JSON 格式无效").
        repeat split. }
  destruct Hv as (e & Hc & Hmsg & Hv). exists e.
  split; [exact Hv|]. split; [exact Hc|]. split; [exact Hmsg|].
  assert (He : main_try json_loads format_other w [] = (Raised e, [])).
  { unfold main_try, bind. now rewrite Hv. }
  destruct (main_error_path json_loads format_other w e [] He)
    as (Hrun & d & Hd & Hg & Hn & Hp & Hr).
  cbv zeta. cbn [app] in Hrun, Hd. rewrite Hd in *.
  split; [exact Hrun|]. repeat split; assumption.
Qed.

Lemma C3_witness :
  env_unset (getenv Sample.w_unset "KOYEB_ACCOUNTS") = true
  /\ exists e,
       (forall t, validate_env_variables Sample.loads Sample.w_unset t
                  = (Raised e, t))
       /\ exn_cls e = ValueError
       /\ exn_str e
          = (if env_unset (getenv Sample.w_unset "KOYEB_ACCOUNTS")
             then "❌ KOYEB_ACCOUNTS 环境变量未设置或格式错误"
             else "❌ KOYEB_ACCOUNTS JSON 格式无效")
       /\ let run := main Sample.loads Sample.format_other Sample.w_unset [] in
          run = send_tg_message Sample.w_unset ("❌ 脚本执行出错: " ++ exn_str e)
                  [Log ERROR ("❌ 脚本执行出错: " ++ exn_str e)]
          /\ gets (snd run) = []
          /\ notifications (snd run) = ["❌ 脚本执行出错: " ++ exn_str e]
          /\ posts (snd run)
             = telegram_post Sample.w_unset ("❌ 脚本执行出错: " ++ exn_str e)
          /\ match fst run with
             | Ok _ => True
             | Raised x => http Sample.w_unset (snd run) = Escaped x
             end.
Proof.
  split; [reflexivity|].
  apply (C3_config_fault_one_error_notification
           Sample.loads Sample.format_other Sample.w_unset).
  left. reflexivity.
Defined.

(** The configuration fault of C3 with a chat id that holds a lone
    surrogate: one call, one POST, and the run ends with the exception of
    that POST. *)
Example run_unset_with_a_surrogate_chat_id :
  let run := main Sample.loads Sample.format_other Strict.w_surrogate_chat [] in
  fst run
  = Raised (mk_exn UnicodeEncodeError
              "'utf-8' codec can't encode character: surrogates not allowed")
  /\ notifications (snd run)
     = ["❌ 脚本执行出错: ❌ KOYEB_ACCOUNTS 环境变量未设置或格式错误"]
  /\ length (posts (snd run)) = 1%nat.
Proof. vm_compute. repeat split. Qed.

(** C9 — If [KOYEB_ACCOUNTS] parses as JSON to a falsy value (an empty
    list, [null], [false], ...), [validate_env_variables] returns it, and
    the run takes the error path all the same: no account check, and one
    call of [send_tg_message] with the error line.  The run returns,
    unless the POST of that one call raised an exception that is not a
    [RequestException]: the run then ends with it. *)
Theorem C9_falsy_accounts_error_path
    (json_loads : pystr -> option pyval) (format_other : pyval -> pystr)
    (w : world) (s : pystr) (v : pyval) :
  getenv w "KOYEB_ACCOUNTS" = Some s -> s <> [] ->
  json_loads s = Some v -> truthy v = false ->
  (forall t, validate_env_variables json_loads w t = (Ok v, t))
  /\ let line := "❌ 脚本执行出错: " ++ "❌ 没有找到有效的 Koyeb 账户信息" in
     let run := main json_loads format_other w [] in
     run = send_tg_message w line [Log ERROR line]
     /\ gets (snd run) = []
     /\ notifications (snd run) = [line]
     /\ posts (snd run) = telegram_post w line
     /\ match fst run with
        | Ok _ => True
        | Raised x => http w (snd run) = Escaped x
        end.
Proof.
  intros Hs Hne Hl Hf.
  assert (Hv : forall t, validate_env_variables json_loads w t = (Ok v, t)).
  { intros t. unfold validate_env_variables. rewrite Hs.
    destruct s as [|c s]; [contradiction|]. now rewrite Hl. }
  split; [exact Hv|].
  assert (He : main_try json_loads format_other w []
               = (Raised (mk_exn ValueError "❌ 没有找到有效的 Koyeb 账户信息"), [])).
  { unfold main_try, bind. rewrite Hv, Hf. reflexivity. }
  destruct (main_error_path json_loads format_other w _ [] He)
    as (Hrun & d & Hd & Hg & Hn & Hp & Hr).
  unfold error_message_of in *. cbn [exn_str app] in *.
  cbv zeta. rewrite Hd in *.
  split; [exact Hrun|]. repeat split; assumption.
Qed.

Lemma C9_witness :
  (forall t, validate_env_variables Sample.loads Sample.w_empty_list t
             = (Ok (PList []), t))
  /\ let line := "❌ 脚本执行出错: " ++ "❌ 没有找到有效的 Koyeb 账户信息" in
     let run := main Sample.loads Sample.format_other Sample.w_empty_list [] in
     run = send_tg_message Sample.w_empty_list line [Log ERROR line]
     /\ gets (snd run) = []
     /\ notifications (snd run) = [line]
     /\ posts (snd run) = telegram_post Sample.w_empty_list line
     /\ match fst run with
        | Ok _ => True
        | Raised x => http Sample.w_empty_list (snd run) = Escaped x
        end.
Proof.
  apply (C9_falsy_accounts_error_path Sample.loads Sample.format_other
           Sample.w_empty_list "[]" (PList [])).
  - reflexivity.
  - discriminate.
  - reflexivity.
  - reflexivity.
Defined.




(** C6 — If the bot token or the chat id is unset or empty,
    [send_tg_message] only logs a warning: it makes no POST and returns
    normally; the run makes no POST at all and returns normally, having
    handed over its one message. *)
Theorem C6_absent_credentials_no_post
    (json_loads : pystr -> option pyval) (format_other : pyval -> pystr)
    (w : world) :
  telegram_configured w = false ->
  (forall message t,
      send_tg_message w message t
      = (Ok tt,
         t ++ [Notify message;
               Log WARNING "⚠️ TG_BOT_TOKEN 或 TG_CHAT_ID 未设置，跳过 Telegram 通知"]))
  /\ exists t message,
       main json_loads format_other w [] = (Ok tt, t)
       /\ posts t = []
       /\ notifications t = [message].
Proof.
  intros Hc.
  assert (Hp : forall message, telegram_post w message = []).
  { intros message. unfold telegram_post. rewrite Hc.
    destruct (getenv w "TG_BOT_TOKEN"), (getenv w "TG_CHAT_ID"); reflexivity. }
  split.
  - intros message t. unfold send_tg_message, bind, emit.
    unfold telegram_configured in Hc.
    destruct (getenv w "TG_BOT_TOKEN") as [[|b bs]|];
      destruct (getenv w "TG_CHAT_ID") as [[|c cs]|];
      try discriminate Hc; rewrite <- app_assoc; reflexivity.
  - destruct (main_notifies_once json_loads format_other w (or_introl Hc))
      as (t & message & Hm & Hn & Hq & _).
    exists t, message. rewrite Hq, Hp. repeat split; assumption.
Qed.

Lemma C6_witness :
  telegram_configured Sample.w_no_telegram = false
  /\ (forall message t,
        send_tg_message Sample.w_no_telegram message t
        = (Ok tt,
           t ++ [Notify message;
                 Log WARNING "⚠️ TG_BOT_TOKEN 或 TG_CHAT_ID 未设置，跳过 Telegram 通知"]))
  /\ exists t message,
       main Sample.loads Sample.format_other Sample.w_no_telegram [] = (Ok tt, t)
       /\ posts t = []
       /\ notifications t = [message].
Proof.
  split; [reflexivity|].
  apply (C6_absent_credentials_no_post
           Sample.loads Sample.format_other Sample.w_no_telegram).
  reflexivity.
Defined.


(** A token made of whitespace only strips to the empty string. *)
Lemma lstrip_all_space s : forallb is_space s = true -> lstrip s = [].
Proof.
  induction s as [|c s IH]; [reflexivity|].
  cbn [forallb lstrip]. intros H. apply andb_prop in H as [Hc Hs].
  rewrite Hc. exact (IH Hs).
Qed.

Lemma strip_all_space s : forallb is_space s = true -> strip s = [].
Proof. intros H. unfold strip. now rewrite (lstrip_all_space s H). Qed.



(** C10 — The loop body sees a token only through [token.strip()]: two
    accounts shown under the same name whose tokens strip to the same text
    are processed alike.  A token of whitespace only strips to the empty
    string, so its account is skipped as one with an empty token is: one
    warning record, no request, the skipped line. *)
Theorem C10_whitespace_token_skipped
    (format_other : pyval -> pystr) (w : world)
    (d : list (pystr * pyval)) (s : pystr)
    (messages : list pystr) (t : trace) :
  token_value d = PStr s ->
  forallb is_space s = true ->
  let name := shown_name d in
  let line := "⚠️ 账户: " ++ fmt format_other name ++ nl ++ "Token 未配置，跳过" in
  let warning :=
    Log WARNING ("⚠️ 账户 " ++ fmt format_other name ++ " 没有配置 token，跳过") in
  strip s = []
  /\ loop_body format_other w (PDict d) messages t
     = (Ok (messages ++ [line]), t ++ [warning])
  /\ gets [warning] = []
  /\ (forall d' s',
        token_value d' = PStr s' -> shown_name d' = shown_name d ->
        strip s' = strip s ->
        loop_body format_other w (PDict d') messages t
        = loop_body format_other w (PDict d) messages t).
Proof.
  intros Ht Hs. cbv zeta.
  pose proof (strip_all_space s Hs) as Hstrip.
  split; [exact Hstrip|]. split; [|split; [reflexivity|]].
  - rewrite loop_body_dict, Ht. cbv zeta. rewrite Hstrip. reflexivity.
  - intros d' s' Ht' Hn' Hs'.
    rewrite !loop_body_dict, Ht, Ht', Hn'. cbv zeta. rewrite Hs'. reflexivity.
Qed.

Lemma C10_witness :
  let d := [("name", PStr "a"); ("token", PStr [32; 9; 12288; 10])] in
  token_value d = PStr [32; 9; 12288; 10]
  /\ forallb is_space [32; 9; 12288; 10] = true
  /\ let name := shown_name d in
     let line := "⚠️ 账户: " ++ fmt Sample.format_other name ++ nl
                 ++ "Token 未配置，跳过" in
     let warning :=
       Log WARNING ("⚠️ 账户 " ++ fmt Sample.format_other name
                    ++ " 没有配置 token，跳过") in
     strip [32; 9; 12288; 10] = []
     /\ loop_body Sample.format_other Sample.w_three (PDict d) [] []
        = (Ok ([] ++ [line]), [] ++ [warning])
     /\ gets [warning] = []
     /\ (forall d' s',
           token_value d' = PStr s' -> shown_name d' = shown_name d ->
           strip s' = strip [32; 9; 12288; 10] ->
           loop_body Sample.format_other Sample.w_three (PDict d') [] []
           = loop_body Sample.format_other Sample.w_three (PDict d) [] []).
Proof.
  split; [reflexivity|]. split; [reflexivity|].
  apply (C10_whitespace_token_skipped Sample.format_other Sample.w_three
           [("name", PStr "a"); ("token", PStr [32; 9; 12288; 10])]
           [32; 9; 12288; 10] [] []); reflexivity.
Defined.


(** The run on one account with an empty token, event by event. *)
Example run_one_skipped_account :
  main Sample.loads Sample.format_other Sample.w_one []
  = (Ok tt,
     [ Log WARNING "⚠️ 账户 a 没有配置 token，跳过";
       Log INFO "📝 任务完成，发送 Telegram 通知";
       Notify ("⏰ 北京时间: 2024-01-01 08:00" ++ nl ++ nl
               ++ "⚠️ 账户: a" ++ nl ++ "Token 未配置，跳过" ++ nl ++ nl
               ++ "✅ 任务执行完成");
       Post "https://api.telegram.org/bot123:abc/sendMessage"
         [ ("chat_id", "42");
           ("text", "⏰ 北京时间: 2024-01-01 08:00" ++ nl ++ nl
                    ++ "⚠️ 账户: a" ++ nl ++ "Token 未配置，跳过" ++ nl ++ nl
                    ++ "✅ 任务执行完成");
           ("parse_mode", "Markdown") ] 30;
       Log INFO "✅ Telegram 消息发送成功" ]).
Proof. vm_compute. reflexivity. Qed.

(** The run on three accounts: one skipped, one accepted, one refused. *)
Example run_three_accounts :
  notifications (snd (main Sample.loads Sample.format_other Sample.w_three []))
  = [ "⏰ 北京时间: 2024-01-01 08:00" ++ nl ++ nl
      ++ "⚠️ 账户: a" ++ nl ++ "Token 未配置，跳过" ++ nl
      ++ "✅ 账户: b Token 校验成功" ++ nl
      ++ "❌ 账户: c Token 校验失败 | 原因: 401 Client Error: Unauthorized for url: https://app.koyeb.com/v1/apps"
      ++ nl ++ nl ++ "✅ 任务执行完成" ]
  /\ map is_get (snd (main Sample.loads Sample.format_other Sample.w_three []))
     = [false; false; true; false; false; true; false; false; false; false; false]
  /\ map is_sleep (snd (main Sample.loads Sample.format_other Sample.w_three []))
     = [false; false; false; true; false; false; true; false; false; false; false].
Proof. vm_compute. repeat split. Qed.

(** Three runs that end on the error path: [KOYEB_ACCOUNTS] holds one
    JSON object instead of a list (the loop walks through its keys); it
    holds a number; an account's token is [null]. *)
Example run_on_a_single_object :
  notifications
    (snd (main (fun _ => Some (Sample.account "a" "valid"))
            Sample.format_other Sample.w_one []))
  = ["❌ 脚本执行出错: 'str' object has no attribute 'get'"].
Proof. vm_compute. reflexivity. Qed.

Example run_on_a_number :
  notifications
    (snd (main (fun _ => Some (PInt 5)) Sample.format_other Sample.w_one []))
  = ["❌ 脚本执行出错: 'int' object is not iterable"].
Proof. vm_compute. reflexivity. Qed.

Example run_on_a_null_token :
  let accounts :=
    PList [Sample.account "b" "valid"; PDict [("name", PStr "a"); ("token", PNone)]] in
  let t := snd (main (fun _ => Some accounts) Sample.format_other Sample.w_one []) in
  notifications t
  = ["❌ 脚本执行出错: 'NoneType' object has no attribute 'strip'"]
  /\ length (gets t) = 1%nat.
Proof. vm_compute. split; reflexivity. Qed.






(** C8 — In every run the time slept between two successive checks is
    5, whatever the first check's outcome and whatever accounts stand
    between the two.  Each check is followed at once by [time.sleep(5)],
    before any following account, skipped or not, is looked at; the one
    exception is a check whose request raised an exception that is not a
    [RequestException]: the error record follows it, and no further check
    is made. *)
Theorem C8_fixed_pause_between_checks
    (json_loads : pystr -> option pyval) (format_other : pyval -> pystr)
    (w : world) :
  let t := snd (main json_loads format_other w []) in
  (forall pre g post,
      t = pre ++ g :: post -> is_get g = true ->
      (exists post', post = Sleep 5 :: post')
      \/ (exists m post', post = Log ERROR m :: post' /\ gets post' = []))
  /\ (forall pre g1 mid g2 post,
        t = pre ++ g1 :: mid ++ g2 :: post ->
        is_get g1 = true -> is_get g2 = true -> gets mid = [] ->
        pause mid = 5).
Proof.
  cbv zeta. split.
  - apply paced_sleep_follows, main_paced.
  - apply paced_between_checks, main_paced.
Qed.

Lemma C8_witness :
  let t := snd (main Sample.loads Sample.format_other Sample.w_three []) in
  let g1 := Get koyeb_url (koyeb_headers "valid") 30 in
  let g2 := Get koyeb_url (koyeb_headers "bad") 30 in
  let mid := [Sleep 5; Log INFO "🔍 正在检查账户: c"] in
  t = firstn 2 t ++ g1 :: mid ++ g2 :: skipn 6 t
  /\ pause mid = 5.
Proof.
  cbv zeta.
  assert (H : snd (main Sample.loads Sample.format_other Sample.w_three [])
              = firstn 2 (snd (main Sample.loads Sample.format_other
                                 Sample.w_three []))
                ++ Get koyeb_url (koyeb_headers "valid") 30
                   :: [Sleep 5; Log INFO "🔍 正在检查账户: c"]
                ++ Get koyeb_url (koyeb_headers "bad") 30
                   :: skipn 6 (snd (main Sample.loads Sample.format_other
                                      Sample.w_three []))).
  { vm_compute. reflexivity. }
  split; [exact H|].
  apply (proj2 (C8_fixed_pause_between_checks
                  Sample.loads Sample.format_other Sample.w_three)
           _ _ _ _ _ H); reflexivity.
Defined.

(** Three accounts with tokens, the second outside Latin-1: two requests,
    one sleep, the third account never looked at, the error line sent. *)
Example run_with_a_chinese_token :
  let t := snd (main (fun _ => Some (PList Strict.chinese_token))
                  Sample.format_other Strict.w_three []) in
  gets t = [ Get koyeb_url (koyeb_headers "valid") 30;
             Get koyeb_url (koyeb_headers "密钥") 30 ]
  /\ pause t = 5
  /\ notifications t
     = ["❌ 脚本执行出错: 'latin-1' codec can't encode characters"].
Proof. vm_compute. repeat split. Qed.

(** * Further properties of the script *)


(** ** Further properties, one by one *)


(** X2 — What a turn of the loop does when its check gets no answer:
    after a timeout the failure line shows the fixed reason [请求超时],
    whatever the exception said; after any other [RequestException] it
    shows the exception's own text, unchanged; in both cases the turn
    sleeps 5.  When the request raises an exception that is not a
    [RequestException], the turn raises it: no line is written and there
    is no sleep. *)
Theorem X2_failed_request_reason
    (format_other : pyval -> pystr) (w : world)
    (d : list (pystr * pyval)) (s : pystr) (c : Z) (tk : pystr)
    (messages : list pystr) (t : trace) :
  token_value d = PStr s -> strip s = c :: tk ->
  let name := fmt format_other (shown_name d) in
  let info := Log INFO ("🔍 正在检查账户: " ++ name) in
  let g := Get koyeb_url (koyeb_headers (c :: tk)) 30 in
  match http w (t ++ [info; g]) with
  | TimedOut _ =>
      loop_body format_other w (PDict d) messages t
      = (Ok (messages
             ++ ["❌ 账户: " ++ name ++ " Token 校验失败 | 原因: 请求超时"]),
         t ++ [info; g; Sleep 5])
  | RequestFailed e =>
      loop_body format_other w (PDict d) messages t
      = (Ok (messages
             ++ ["❌ 账户: " ++ name ++ " Token 校验失败 | 原因: " ++ e]),
         t ++ [info; g; Sleep 5])
  | Escaped e =>
      loop_body format_other w (PDict d) messages t
      = (Raised e, t ++ [info; g])
  | Responded _ _ _ => True
  end.
Proof.
  intros Ht Hs. cbv zeta. rewrite loop_body_dict, Ht. cbv zeta. rewrite Hs.
  unfold verdict.
  destruct (http w _) as [st rs ur|e|e|e]; [exact I|reflexivity..].
Qed.

Lemma X2_witness :
  loop_body Sample.format_other Unreachable.w_three
    (Sample.account "b" " valid ") [] []
  = (Ok ([] ++ ["❌ 账户: b Token 校验失败 | 原因: 请求超时"]),
     [] ++ [Log INFO "🔍 正在检查账户: b";
            Get koyeb_url (koyeb_headers "valid") 30; Sleep 5]).
Proof.
  exact (X2_failed_request_reason Sample.format_other Unreachable.w_three
           [("name", PStr "b"); ("token", PStr " valid ")] " valid " 118 "alid"
           [] [] eq_refl eq_refl).
Defined.





(** A message that holds a lone surrogate: the POST raises, and so does
    the function. *)
Example send_with_a_surrogate :
  send_tg_message Strict.w_three [112; 105; 110; 103; 55296] []
  = (Raised (mk_exn UnicodeEncodeError
               "'utf-8' codec can't encode character: surrogates not allowed"),
     [ Notify [112; 105; 110; 103; 55296];
       Post "https://api.telegram.org/bot123:abc/sendMessage"
         [ ("chat_id", "42"); ("text", [112; 105; 110; 103; 55296]);
           ("parse_mode", "Markdown") ] 30 ]).
Proof. vm_compute. reflexivity. Qed.

(** X5 — The name shown for a [dict] account is never empty or otherwise
    falsy: it is the value under ["name"] when that is truthy, else the
    value under ["email"] when that is truthy, else the placeholder
    [未命名账号]; reading it has no effect and cannot fail. *)
Theorem X5_account_name_never_falsy
    (d : list (pystr * pyval)) (t : trace) :
  exists n,
    account_name (PDict d) t = (Ok n, t)
    /\ truthy n = true
    /\ n = (if truthy (get_or_none d "name") then get_or_none d "name"
            else if truthy (get_or_none d "email") then get_or_none d "email"
            else PStr "未命名账号").
Proof.
  exists (shown_name d). split; [apply account_name_dict|].
  unfold shown_name, or_else.
  destruct (truthy (get_or_none d "name")) eqn:Hn; [now split|].
  destruct (truthy (get_or_none d "email")) eqn:He; now split.
Qed.




(** X7 — When [KOYEB_ACCOUNTS] parses to a truthy value that is not a
    list, no account is checked and the error line is the one message
    handed to [send_tg_message]: a number or [true] cannot be iterated
    ([TypeError]); a JSON object or a string is walked through key by key
    or character by character, and the first of these, a [str], has no
    [get].  The run returns unless the POST of that message raises an
    exception outside [RequestException], which then leaves [main]. *)
Theorem X7_not_a_list_error_path
    (json_loads : pystr -> option pyval) (format_other : pyval -> pystr)
    (w : world) (s : pystr) (v : pyval) (dt : datetime) :
  getenv w "KOYEB_ACCOUNTS" = Some s -> s <> [] ->
  json_loads s = Some v -> truthy v = true ->
  (forall l, v <> PList l) ->
  add_8_hours (utcnow w) = Some dt ->
  let run := main json_loads format_other w [] in
  let fault :=
    match v with
    | PDict _ | PStr _ => "'str' object has no attribute 'get'"
    | _ => "'" ++ type_name v ++ "' object is not iterable"
    end in
  gets (snd run) = []
  /\ notifications (snd run) = ["❌ 脚本执行出错: " ++ fault]
  /\ posts (snd run) = telegram_post w ("❌ 脚本执行出错: " ++ fault)
  /\ match fst run with
     | Ok _ => True
     | Raised x => http w (snd run) = Escaped x
     end.
Proof.
  intros Hs Hne Hl Hv Hnl Hdt.
  assert (He : main_try json_loads format_other w []
               = (Raised (mk_exn
                            match v with
                            | PDict _ | PStr _ => AttributeError
                            | _ => TypeError
                            end
                            match v with
                            | PDict _ | PStr _ =>
                                "'str' object has no attribute 'get'"
                            | _ => "'" ++ type_name v ++ "' object is not iterable"
                            end), [])).
  { unfold main_try. unfold bind at 1. unfold validate_env_variables.
    rewrite Hs. destruct s as [|c s]; [contradiction|]. rewrite Hl.
    unfold ret at 1. rewrite Hv. cbn [negb]. unfold bind at 1. rewrite Hdt.
    unfold ret at 1. unfold bind at 1.
    destruct v as [| | | |x|l|x]; try reflexivity;
      try (now contradiction (Hnl l));
      destruct x as [|y x]; try discriminate Hv; reflexivity. }
  pose proof (main_error_path json_loads format_other w _ _ He) as H.
  cbv zeta in H. unfold error_message_of in H. cbn [exn_str] in H.
  destruct H as (_ & d & Hsnd & Hg & Hn & Hq & Hr).
  cbn [app] in Hsnd. cbv zeta. rewrite Hsnd at 1 2 3.
  repeat split; assumption.
Qed.

Lemma X7_witness :
  let run := main (fun _ => Some (PInt 5)) Sample.format_other Sample.w_three [] in
  gets (snd run) = []
  /\ notifications (snd run) = ["❌ 脚本执行出错: 'int' object is not iterable"]
  /\ posts (snd run)
     = telegram_post Sample.w_three "❌ 脚本执行出错: 'int' object is not iterable"
  /\ match fst run with
     | Ok _ => True
     | Raised x => http Sample.w_three (snd run) = Escaped x
     end.
Proof.
  apply (X7_not_a_list_error_path (fun _ => Some (PInt 5)) Sample.format_other
           Sample.w_three Sample.three_text (PInt 5) (mk_datetime 2024 1 1 8 0)).
  - reflexivity.
  - discriminate.
  - reflexivity.
  - reflexivity.
  - discriminate.
  - reflexivity.
Defined.





(** X10 — In every run, whatever the configuration holds, each check is
    a GET to the fixed URL with the fixed headers and a timeout of 30, and
    the token it carries is not empty and has no whitespace at either end:
    stripping it again changes nothing. *)
Theorem X10_every_check_carries_a_stripped_token
    (json_loads : pystr -> option pyval) (format_other : pyval -> pystr)
    (w : world) :
  Forall clean_check (gets (snd (main json_loads format_other w []))).
Proof.
  destruct (main_tail json_loads format_other w)
    as (accounts & r & d & Hm & Hg & _).
  rewrite Hm. cbn [snd]. rewrite gets_app, Hg, app_nil_r.
  apply for_accounts_clean. constructor.
Qed.

(** ** The summary, line by line *)

Lemma split_lines_app a b :
  no_newline a = true -> split_lines (a ++ 10 :: b) = a :: split_lines b.
Proof.
  induction a as [|c a IH]; intros Ha; [reflexivity|].
  cbn [no_newline forallb] in Ha. apply andb_prop in Ha as [Hc Ha].
  cbn [app split_lines].
  destruct (c =? 10); [discriminate Hc|]. now rewrite (IH Ha).
Qed.

Lemma split_lines_line a : no_newline a = true -> split_lines a = [a].
Proof.
  induction a as [|c a IH]; intros Ha; [reflexivity|].
  cbn [no_newline forallb] in Ha. apply andb_prop in Ha as [Hc Ha].
  cbn [split_lines]. destruct (c =? 10); [discriminate Hc|].
  now rewrite (IH Ha).
Qed.

Lemma split_lines_join lines : forall rest,
  lines <> [] -> forallb no_newline lines = true ->
  split_lines (join nl lines ++ 10 :: rest) = lines ++ split_lines rest.
Proof.
  induction lines as [|p [|q r] IH]; intros rest Hne Hl; [contradiction| |].
  - cbn [forallb] in Hl. apply andb_prop in Hl as [Hp _].
    cbn [join app]. now apply split_lines_app.
  - cbn [forallb] in Hl. apply andb_prop in Hl as [Hp Hl].
    change (join nl (p :: q :: r)) with (p ++ nl ++ join nl (q :: r)).
    unfold nl at 1. rewrite <- !app_assoc. cbn [app].
    rewrite (split_lines_app _ _ Hp).
    rewrite (IH rest ltac:(discriminate) Hl). reflexivity.
Qed.

(** X11 — Splitting a summary at its newlines gives back what it was
    built from, provided the time stamp and the result entries hold no
    newline themselves: the header line, an empty line, the entries one
    per line in order, an empty line, the completion line.  (The entry of
    a skipped account holds a newline, so this is the summary of a run
    that skipped no account.) *)
Theorem X11_summary_splits_into_its_entries
    (current_time : pystr) (entries : list pystr) :
  no_newline current_time = true ->
  entries <> [] -> forallb no_newline entries = true ->
  split_lines (summary_of current_time entries)
  = ("⏰ 北京时间: " ++ current_time) :: [] :: entries
    ++ [[]; "✅ 任务执行完成"].
Proof.
  intros Hc Hne He. unfold summary_of, nl.
  assert (Hh : no_newline ("⏰ 北京时间: " ++ current_time) = true).
  { unfold no_newline in *. rewrite forallb_app, Hc. reflexivity. }
  change (join [10] entries) with (join nl entries).
  replace ("⏰ 北京时间: " ++ current_time ++ [10] ++ [10]
           ++ join nl entries ++ [10] ++ [10] ++ "✅ 任务执行完成")
    with (("⏰ 北京时间: " ++ current_time)
          ++ 10 :: ([] ++ 10 :: (join nl entries
                                 ++ 10 :: ([] ++ 10 :: "✅ 任务执行完成"))))
    by (rewrite <- !app_assoc; reflexivity).
  rewrite (split_lines_app _ _ Hh).
  rewrite (split_lines_app [] _ eq_refl).
  rewrite (split_lines_join entries _ Hne He).
  rewrite (split_lines_app [] _ eq_refl).
  rewrite (split_lines_line "✅ 任务执行完成" eq_refl). reflexivity.
Qed.

Lemma X11_witness :
  split_lines
    (summary_of "2024-01-01 08:00"
       ["✅ 账户: b Token 校验成功"; "❌ 账户: c Token 校验失败 | 原因: 请求超时"])
  = [ "⏰ 北京时间: 2024-01-01 08:00"; [];
      "✅ 账户: b Token 校验成功"; "❌ 账户: c Token 校验失败 | 原因: 请求超时";
      []; "✅ 任务执行完成" ].
Proof.
  exact (X11_summary_splits_into_its_entries "2024-01-01 08:00"
           ["✅ 账户: b Token 校验成功"; "❌ 账户: c Token 校验失败 | 原因: 请求超时"]
           eq_refl ltac:(discriminate) eq_refl).
Defined.


